(** * Roblox Activity Tracker: the polling loop, its fetchers and its notifier

    A shallow embedding of [Main.py] and [Assets/Config.py].  Python values
    decoded from JSON are an inductive type, the [last_states] dictionary is
    a [gmap], the network is an oracle consulted once per HTTP call, and
    Python exceptions are an explicit error result threaded through a small
    state-and-trace monad.  Logging writes no state the program reads back
    and is left out of the model. *)

From Stdlib Require Import ZArith List String Ascii Lia Bool.
From Stdlib Require Import Floats.SpecFloat.
From stdpp Require Import base gmap strings pretty.

Local Open Scope string_scope.
Local Open Scope list_scope.
Local Open Scope Z_scope.

(** ** Assets/Config.py *)

Module Config.

Definition TEST_USER_ID : string := "1431529325".
Definition COOKIE : string := EmptyString.
Definition DISCORD_WEBHOOK : string := EmptyString.
Definition CHECK_INTERVAL : Z := 30.

(** The two URL templates are used only through [str.format], with one
    named field at the end of the template. *)
Definition GAMES_URL_format (universe_id : string) : string :=
  "https://games.roproxy.com/v1/games?universeIds=" +:+ universe_id.
Definition PRESENCE_URL : string :=
  "https://presence.roproxy.com/v1/presence/users".
Definition USERS_URL_format (user_id : string) : string :=
  "https://users.roproxy.com/v1/users/" +:+ user_id.

End Config.

(** ** Python values

    Everything the loop handles comes out of [json.loads] (or is [None], a
    string or an integer built by the program), so one type of values covers
    it.  A [PDict] lists the items of a dictionary in insertion order, one
    item per key; a [PFloat] is a binary64 value in canonical form. *)

#[local] Set Warnings "-register-all".

Inductive value : Type :=
| PNone
| PBool (b : bool)
| PInt (n : Z)
| PFloat (f : spec_float)
| PStr (s : string)
| PList (l : list value)
| PDict (d : list (string * value)).

Inductive exn : Type :=
| RequestException   (* requests.RequestException and its subclasses *)
| JSONDecodeError    (* raised by Response.json() on a body that is not JSON *)
| KeyError
| TypeError
| AttributeError
| IndexError.

Inductive result (A : Type) : Type :=
| Ok (a : A)
| Raise (e : exn).
Arguments Ok {A} a.
Arguments Raise {A} e.

(** [d.get(k)] on the items of a dictionary. *)
Fixpoint dict_lookup (k : string) (d : list (string * value)) : option value :=
  match d with
  | [] => None
  | (k', v) :: d' => if String.eqb k k' then Some v else dict_lookup k d'
  end.

(** Truth value of an object, as [if x], [x or y] and [not x] test it. *)
Definition truthy (v : value) : bool :=
  match v with
  | PNone => false
  | PBool b => b
  | PInt n => negb (n =? 0)
  | PFloat (S754_zero _) => false
  | PFloat _ => true
  | PStr s => negb (String.eqb s EmptyString)
  | PList l => match l with [] => false | _ => true end
  | PDict d => match d with [] => false | _ => true end
  end.

(** [x or y] *)
Definition py_or (x y : value) : value := if truthy x then x else y.

(** Numbers: [bool] is a subclass of [int]; an [int] and a [float] compare
    by their exact mathematical values. *)
Inductive number : Type :=
| NInt (n : Z)
| NFloat (f : spec_float).

Definition as_number (v : value) : option number :=
  match v with
  | PBool b => Some (NInt (if b then 1 else 0))
  | PInt n => Some (NInt n)
  | PFloat f => Some (NFloat f)
  | _ => None
  end.

Definition float_eq_int (f : spec_float) (n : Z) : bool :=
  match f with
  | S754_zero _ => n =? 0
  | S754_finite s m e =>
      let mz := if s then Z.neg m else Z.pos m in
      if 0 <=? e then mz * 2 ^ e =? n else mz =? n * 2 ^ (- e)
  | S754_infinity _ | S754_nan => false
  end.

Definition number_eq (x y : number) : bool :=
  match x, y with
  | NInt a, NInt b => a =? b
  | NInt a, NFloat f | NFloat f, NInt a => float_eq_int f a
  | NFloat f, NFloat g => SFeqb f g
  end.

(** The decoder hands out one shared object for every [NaN] it reads, and
    containers compare their elements with an identity test before [==]. *)
Definition same_nan (x y : value) : bool :=
  match x, y with
  | PFloat S754_nan, PFloat S754_nan => true
  | _, _ => false
  end.

(** [a == b] *)
Fixpoint py_eq (a b : value) : bool :=
  match a, b with
  | PNone, PNone => true
  | PStr s, PStr t => String.eqb s t
  | PList l, PList m =>
      (fix all2 (l m : list value) : bool :=
         match l, m with
         | [], [] => true
         | x :: l', y :: m' => (same_nan x y || py_eq x y) && all2 l' m'
         | _, _ => false
         end) l m
  | PDict d, PDict e =>
      (length d =? length e)%nat &&
      (fix items (d : list (string * value)) : bool :=
         match d with
         | [] => true
         | (k, v) :: d' =>
             match dict_lookup k e with
             | Some v' => (same_nan v v' || py_eq v v') && items d'
             | None => false
             end
         end) d
  | _, _ =>
      match as_number a, as_number b with
      | Some x, Some y => number_eq x y
      | _, _ => false
      end
  end.

(** [a != b] *)
Definition py_ne (a b : value) : bool := negb (py_eq a b).

Fixpoint join (sep : string) (l : list string) : string :=
  match l with
  | [] => EmptyString
  | [s] => s
  | s :: l' => s +:+ sep +:+ join sep l'
  end.

Fixpoint chars (s : string) : list value :=
  match s with
  | EmptyString => []
  | String c s' => PStr (String c EmptyString) :: chars s'
  end.

Definition lower_ascii (c : ascii) : ascii :=
  let n := nat_of_ascii c in
  if ((65 <=? n) && (n <=? 90))%nat then ascii_of_nat (n + 32) else c.

Fixpoint lower (s : string) : string :=
  match s with
  | EmptyString => EmptyString
  | String c s' => String (lower_ascii c) (lower s')
  end.

Fixpoint startswith (s prefix : string) : bool :=
  match prefix, s with
  | EmptyString, _ => true
  | String p prefix', String c s' => Ascii.eqb p c && startswith s' prefix'
  | String _ _, EmptyString => false
  end.

(** ** The HTTP client

    [Retry] and [HTTPAdapter] carry the configuration the program writes;
    how urllib3 acts on it is not part of the source. *)

Record Retry : Type := {
  total : Z;
  backoff_factor : Z;
  status_forcelist : list Z;
  allowed_methods : list string
}.

(** [HTTPAdapter()] without arguments: [max_retries] is 0. *)
Definition DEFAULT_RETRIES : Retry :=
  {| total := 0; backoff_factor := 0; status_forcelist := [];
     allowed_methods := ["HEAD"; "GET"; "PUT"; "DELETE"; "OPTIONS"; "TRACE"] |}.

Record HTTPAdapter : Type := { max_retries : Retry }.

Record Session : Type := {
  cookies : list (string * string);
  headers : list (string * string);
  adapters : list (string * HTTPAdapter)
}.

(** [requests.Session()]; the headers the library sets by default are left
    out, the program overwrites the only one it cares about. *)
Definition new_Session : Session :=
  {| cookies := [];
     headers := [];
     adapters := [("https://", {| max_retries := DEFAULT_RETRIES |});
                  ("http://", {| max_retries := DEFAULT_RETRIES |})] |}.

Fixpoint assoc_set {A : Type} (k : string) (a : A) (l : list (string * A))
  : list (string * A) :=
  match l with
  | [] => [(k, a)]
  | (k', a') :: l' =>
      if String.eqb k k' then (k, a) :: l' else (k', a') :: assoc_set k a l'
  end.

(** [session.mount(prefix, adapter)]; the library also keeps longer
    prefixes first, which the two mounts of the program already are. *)
Definition mount (prefix : string) (a : HTTPAdapter) (s : Session) : Session :=
  {| cookies := cookies s; headers := headers s;
     adapters := assoc_set prefix a (adapters s) |}.

(** [session.get_adapter(url)]: the adapter mounted on a prefix of the URL. *)
Definition get_adapter (s : Session) (url : string) : option HTTPAdapter :=
  snd <$> List.find (fun pa => startswith (lower url) (lower (fst pa))) (adapters s).

Inductive method : Type := GET | POST.

(** Who issues a call: a [Session] object, or the module-level
    [requests.post], which runs on a fresh default session. *)
Inductive client : Type :=
| ViaSession (s : Session)
| ViaRequests.

Record request : Type := {
  req_client : client;
  req_method : method;
  req_url : string;
  req_headers : list (string * string);   (* the [headers=] argument *)
  req_json : option value;                (* the [json=] argument *)
  req_timeout : Z
}.

(** The retry policy a call runs under. *)
Definition retry_policy (rq : request) : option Retry :=
  match req_client rq with
  | ViaSession s => max_retries <$> get_adapter s (req_url rq)
  | ViaRequests => max_retries <$> get_adapter new_Session (req_url rq)
  end.

Record Response : Type := {
  status_code : Z;
  resp_headers : list (string * string);
  body : option value   (* [None]: the body is not JSON *)
}.

(** What a call comes back with: it raised a [RequestException] (no
    connection, timeout, retries exhausted, bad URL) or it returned. *)
Inductive outcome : Type :=
| Failed
| Responded (r : Response).

(** The network answers the [n]-th call of the run. *)
Definition network : Type := nat -> request -> outcome.

Inductive event : Type :=
| EvRequest (rq : request)
| EvSleep (seconds : Z).

(** ** State, trace and exceptions *)

Record world : Type := {
  last_states : gmap string value;
  clock : nat   (* HTTP calls made so far *)
}.

Definition tick (w : world) : world :=
  {| last_states := last_states w; clock := S (clock w) |}.

Definition M (A : Type) : Type := world -> result A * world * list event.

Definition ret {A : Type} (a : A) : M A := fun w => (Ok a, w, []).

Definition raise {A : Type} (e : exn) : M A := fun w => (Raise e, w, []).

Definition bind {A B : Type} (m : M A) (f : A -> M B) : M B :=
  fun w =>
    match m w with
    | (Ok a, w1, t1) => let '(r, w2, t2) := f a w1 in (r, w2, t1 ++ t2)
    | (Raise e, w1, t1) => (Raise e, w1, t1)
    end.

Definition lift {A : Type} (r : result A) : M A := fun w => (r, w, []).

Notation "x <- m ;; k" := (bind m (fun x => k))
  (at level 100, m at next level, right associativity).
Notation "m ;;; k" := (bind m (fun _ => k))
  (at level 100, right associativity).

(** [try: m  except handled: h] *)
Definition try_except {A : Type} (m : M A) (handled : exn -> bool) (h : M A) : M A :=
  fun w =>
    match m w with
    | (Raise e, w1, t1) =>
        if handled e then let '(r, w2, t2) := h w1 in (r, w2, t1 ++ t2)
        else (Raise e, w1, t1)
    | ok => ok
    end.

Definition get_last_states : M (gmap string value) :=
  fun w => (Ok (last_states w), w, []).

(** [last_states[k] = v] *)
Definition set_last_state (k : string) (v : value) : M unit :=
  fun w => (Ok tt, {| last_states := <[k := v]> (last_states w); clock := clock w |}, []).

Definition sleep (seconds : Z) : M unit := fun w => (Ok tt, w, [EvSleep seconds]).

(** [for x in l: body(x)] *)
Fixpoint for_each {A : Type} (l : list A) (body : A -> M unit) : M unit :=
  match l with
  | [] => ret tt
  | x :: l' => body x ;;; for_each l' body
  end.

(** Operations on objects that raise when the object has the wrong type. *)

(** [v[k]] for a string [k] *)
Definition getitem (v : value) (k : string) : result value :=
  match v with
  | PDict d => match dict_lookup k d with Some x => Ok x | None => Raise KeyError end
  | _ => Raise TypeError
  end.

(** [v.get(k, default)] *)
Definition get (v : value) (k : string) (dflt : value) : result value :=
  match v with
  | PDict d => Ok (default dflt (dict_lookup k d))
  | _ => Raise AttributeError
  end.

(** [v[0]] on an object already known to be truthy *)
Definition getitem0 (v : value) : result value :=
  match v with
  | PList (x :: _) => Ok x
  | PList [] => Raise IndexError
  | PStr (String c _) => Ok (PStr (String c EmptyString))
  | PStr EmptyString => Raise IndexError
  | PDict _ => Raise KeyError
  | _ => Raise TypeError
  end.

(** [iter(v)], fully unrolled *)
Definition iterate (v : value) : result (list value) :=
  match v with
  | PList l => Ok l
  | PDict d => Ok (map (fun kv => PStr (fst kv)) d)
  | PStr s => Ok (chars s)
  | _ => Raise TypeError
  end.

Definition rbind {A B : Type} (r : result A) (f : A -> result B) : result B :=
  match r with
  | Ok a => f a
  | Raise e => Raise e
  end.

Notation "x <~ r ;; k" := (rbind r (fun x => k))
  (at level 100, r at next level, right associativity).

(** ** Library behaviour the source relies on

    [repr] of a float and of a string, and whether the installed
    [requests] raises its own [JSONDecodeError] (a [RequestException],
    from version 2.27 on) or a plain [ValueError] from [Response.json()]. *)

Class Platform : Type := {
  float_repr : spec_float -> string;
  str_repr : string -> string;
  json_error_is_request_exception : bool
}.

Section Program.
Context {P : Platform}.

(** [repr(v)] *)
Fixpoint py_repr (v : value) : string :=
  match v with
  | PNone => "None"
  | PBool b => if b then "True" else "False"
  | PInt n => pretty n
  | PFloat f => float_repr f
  | PStr s => str_repr s
  | PList l => "[" +:+ join ", " (map py_repr l) +:+ "]"
  | PDict d =>
      "{" +:+ join ", " (map (fun kv => str_repr (fst kv) +:+ ": " +:+ py_repr (snd kv)) d)
          +:+ "}"
  end.

(** [str(v)], which is also what an f-string field [{v}] formats to *)
Definition py_str (v : value) : string :=
  match v with
  | PStr s => s
  | _ => py_repr v
  end.

(** [except requests.RequestException] *)
Definition is_RequestException (e : exn) : bool :=
  match e with
  | RequestException => true
  | JSONDecodeError => json_error_is_request_exception
  | _ => false
  end.

Variable net : network.

Definition send (rq : request) : M Response :=
  fun w =>
    match net (clock w) rq with
    | Failed => (Raise RequestException, tick w, [EvRequest rq])
    | Responded r => (Ok r, tick w, [EvRequest rq])
    end.

(** [session.post(url, headers=hs, json=j, timeout=t)] *)
Definition session_post (s : Session) (url : string) (hs : list (string * string))
    (j : value) (t : Z) : M Response :=
  send {| req_client := ViaSession s; req_method := POST; req_url := url;
          req_headers := hs; req_json := Some j; req_timeout := t |}.

(** [session.get(url, timeout=t)] *)
Definition session_get (s : Session) (url : string) (t : Z) : M Response :=
  send {| req_client := ViaSession s; req_method := GET; req_url := url;
          req_headers := []; req_json := None; req_timeout := t |}.

(** [requests.post(url, json=j, timeout=t)] *)
Definition requests_post (url : string) (j : value) (t : Z) : M Response :=
  send {| req_client := ViaRequests; req_method := POST; req_url := url;
          req_headers := []; req_json := Some j; req_timeout := t |}.

(** [response.raise_for_status()]: [HTTPError] on 4xx and 5xx *)
Definition raise_for_status (r : Response) : M unit :=
  if (400 <=? status_code r) && (status_code r <? 600)
  then raise RequestException else ret tt.

(** [response.json()] *)
Definition json (r : Response) : M value :=
  match body r with
  | Some v => ret v
  | None => raise JSONDecodeError
  end.

(** Response headers are looked up without regard to case. *)
Definition header (r : Response) (k : string) : option string :=
  snd <$> List.find (fun kv => String.eqb (lower (fst kv)) (lower k)) (resp_headers r).

Definition retry_strategy : Retry :=
  {| total := 3;
     backoff_factor := 1;
     status_forcelist := [429; 500; 502; 503; 504];
     allowed_methods := ["HEAD"; "GET"; "OPTIONS"; "POST"] |}.

Definition create_authenticated_session : M Session :=
  let session := new_Session in
  let session :=
    {| cookies := assoc_set ".ROBLOSECURITY" Config.COOKIE (cookies session);
       headers := headers session; adapters := adapters session |} in
  let hs := [("User-Agent", "Mozilla/5.0")] in
  let adapter := {| max_retries := retry_strategy |} in
  let session := mount "https://" adapter session in
  let session := mount "http://" adapter session in
  hs <- try_except
          (r <- session_post session Config.PRESENCE_URL hs
                  (PDict [("userIds", PList [PStr Config.TEST_USER_ID])]) 10 ;;
           match status_code r =? 403, header r "x-csrf-token" with
           | true, Some token => ret (assoc_set "X-CSRF-TOKEN" token hs)
           | _, _ => ret hs
           end)
          is_RequestException
          (ret hs) ;;
  ret {| cookies := cookies session;
         headers := fold_left (fun acc kv => assoc_set (fst kv) (snd kv) acc) hs (headers session);
         adapters := adapters session |}.

Definition get_presence (session : Session) (user_ids : value) : M value :=
  try_except
    (response <- session_post session Config.PRESENCE_URL []
                   (PDict [("userIds", user_ids)]) 10 ;;
     raise_for_status response ;;;
     data <- json response ;;
     lift (get data "userPresences" (PList [])))
    is_RequestException
    (ret (PList [])).

Definition get_game_info (session : Session) (universe_id : value) : M value :=
  let url := Config.GAMES_URL_format (py_str universe_id) in
  try_except
    (response <- session_get session url 10 ;;
     raise_for_status response ;;;
     j <- json response ;;
     data <- lift (get j "data" (PList [])) ;;
     if truthy data
     then lift (x <~ getitem0 data ;; get x "name" (PStr "Unknown Game"))
     else ret (PStr "Unknown Game"))
    is_RequestException
    (ret (PStr "Unknown Game")).

Definition get_user_info (session : Session) (user_id : string) : M (value * value) :=
  let url := Config.USERS_URL_format user_id in
  try_except
    (response <- session_get session url 10 ;;
     raise_for_status response ;;;
     data <- json response ;;
     lift (name <~ get data "name" PNone ;;
           display_name <~ get data "displayName" PNone ;;
           Ok (name, display_name)))
    is_RequestException
    (ret (PNone, PNone)).

Definition send_webhook (embed : value) : M unit :=
  try_except
    (resp <- requests_post Config.DISCORD_WEBHOOK (PDict [("embeds", PList [embed])]) 10 ;;
     raise_for_status resp)
    is_RequestException
    (ret tt).

Definition build_embed_in_game (presence game_name username display_name : value)
  : result value :=
  user_id <~ getitem presence "userId" ;;
  place_id <~ get presence "placeId" PNone ;;
  game_id <~ get presence "gameId" PNone ;;
  if truthy place_id && truthy game_id then
    let join_url := "https://www.roblox.com/games/start?placeId=" +:+ py_str place_id
                      +:+ "&gameId=" +:+ py_str game_id in
    let game_page_url := "https://www.roblox.com/games/" +:+ py_str place_id in
    let title := py_str (py_or display_name username) +:+ " is now in-game" in
    let description := "**" +:+ py_str game_name +:+ "**" in
    Ok (PDict [("title", PStr title);
               ("color", PInt 0x00FF00);
               ("description", PStr description);
               ("url", PStr join_url);
               ("fields", PList [
                  PDict [("name", PStr "Join Server");
                         ("value", PStr ("[Click Here](" +:+ join_url +:+ ")"));
                         ("inline", PBool true)];
                  PDict [("name", PStr "Game Page");
                         ("value", PStr ("[View Game](" +:+ game_page_url +:+ ")"));
                         ("inline", PBool true)]])])
  else
    let title := py_str (py_or display_name username) +:+ " is in a game" in
    Ok (PDict [("title", PStr title);
               ("color", PInt 0x00FFFF);
               ("description", PStr "Joins are off, check badges for hint of game.")]).

(** [load_user_ids()]; the argument is what reading and decoding
    [Assets/users.json] gave, [None] when either step raised. *)
Definition load_user_ids (users_json : option value) : value :=
  match users_json with
  | Some v => v
  | None => PList []
  end.

(** The body of [for presence in presences]. *)
Definition process_presence (session : Session) (presence : value) : M unit :=
  uid <- lift (getitem presence "userId") ;;
  let user_id := py_str uid in
  state <- lift (get presence "userPresenceType" (PInt 0)) ;;
  ls <- get_last_states ;;
  let last_state := default PNone (ls !! user_id) in
  if py_ne state last_state then
    names <- get_user_info session user_id ;;
    let username := fst names in
    let display_name := snd names in
    (if py_eq state (PInt 0) then
       send_webhook
         (PDict [("title", PStr (py_str (py_or (py_or display_name username) (PStr user_id))
                                   +:+ " is Offline"));
                 ("color", PInt 0xFF0000)])
     else if py_eq state (PInt 1) then
       send_webhook
         (PDict [("title", PStr (py_str (py_or (py_or display_name username) (PStr user_id))
                                   +:+ " is Online (not in-game)"));
                 ("color", PInt 0xFFFF00)])
     else if py_eq state (PInt 2) then
       universe_id <- lift (get presence "universeId" PNone) ;;
       game_name <- (if truthy universe_id
                     then get_game_info session universe_id
                     else ret (PStr "Unknown Game")) ;;
       embed <- lift (build_embed_in_game presence game_name username display_name) ;;
       send_webhook embed
     else ret tt) ;;;
    set_last_state user_id state
  else ret tt.

(** The body of [while True]. *)
Definition cycle (session : Session) (user_ids : value) : M unit :=
  presences <- get_presence session user_ids ;;
  records <- lift (iterate presences) ;;
  for_each records (process_presence session) ;;;
  sleep Config.CHECK_INTERVAL.

(** [n] rounds of the loop, which the program itself never leaves. *)
Fixpoint loop (n : nat) (session : Session) (user_ids : value) : M unit :=
  match n with
  | O => ret tt
  | S n' => cycle session user_ids ;;; loop n' session user_ids
  end.

Definition main (users_json : option value) (n : nat) : M unit :=
  session <- create_authenticated_session ;;
  let user_ids := load_user_ids users_json in
  if negb (truthy user_ids) then ret tt
  else
    (fun w => (Ok tt, {| last_states := ∅; clock := clock w |}, [])) ;;;
    loop n session user_ids.

End Program.

(** ** Observations on a run *)

(** The embed a webhook call delivers: the one call of the program that
    goes out through [requests.post]. *)
Definition webhook_embed (e : event) : option value :=
  match e with
  | EvRequest rq =>
      match req_client rq, req_json rq with
      | ViaRequests, Some (PDict [(_, PList [embed])]) => Some embed
      | _, _ => None
      end
  | EvSleep _ => None
  end.

(** The notifications a trace contains, in order. *)
Definition notifications (t : list event) : list value := omap webhook_embed t.

(** A call that ended in a network or HTTP failure. *)
Definition fetch_failed (o : outcome) : bool :=
  match o with
  | Failed => true
  | Responded r => (400 <=? status_code r) && (status_code r <? 600)
  end.

(** The states the loop has a notification for. *)
Definition known_state (state : value) : bool :=
  py_eq state (PInt 0) || py_eq state (PInt 1) || py_eq state (PInt 2).

Definition completes {A : Type} (m : M A) (w : world) : Prop :=
  exists a w' t, m w = (Ok a, w', t).

Section Observations.
Context {P : Platform}.

(** The key of [last_states] a record is filed under. *)
Definition record_user (presence : value) : option string :=
  match getitem presence "userId" with
  | Ok uid => Some (py_str uid)
  | Raise _ => None
  end.

(** The iterations of a [for] loop: each element the body ran on, with the
    events of that run; the loop stops at the first exception. *)
Fixpoint iterations {A : Type} (l : list A) (body : A -> M unit) (w : world)
  : list (A * list event) :=
  match l with
  | [] => []
  | x :: l' =>
      match body x w with
      | (Ok _, w1, t1) => (x, t1) :: iterations l' body w1
      | (Raise _, _, t1) => [(x, t1)]
      end
  end.

(** The notifications sent while the loop was on a record of user [u]. *)
Definition notifications_for (u : string) (its : list (value * list event))
  : list value :=
  flat_map (fun it => if decide (record_user (fst it) = Some u)
                      then notifications (snd it) else []) its.

(** The four calls of the loop, as the network sees them. *)
Definition presence_request (s : Session) (user_ids : value) : request :=
  {| req_client := ViaSession s; req_method := POST; req_url := Config.PRESENCE_URL;
     req_headers := []; req_json := Some (PDict [("userIds", user_ids)]);
     req_timeout := 10 |}.

Definition game_info_request (s : Session) (universe_id : value) : request :=
  {| req_client := ViaSession s; req_method := GET;
     req_url := Config.GAMES_URL_format (py_str universe_id);
     req_headers := []; req_json := None; req_timeout := 10 |}.

Definition user_info_request (s : Session) (user_id : string) : request :=
  {| req_client := ViaSession s; req_method := GET;
     req_url := Config.USERS_URL_format user_id;
     req_headers := []; req_json := None; req_timeout := 10 |}.

Definition webhook_request (embed : value) : request :=
  {| req_client := ViaRequests; req_method := POST; req_url := Config.DISCORD_WEBHOOK;
     req_headers := []; req_json := Some (PDict [("embeds", PList [embed])]);
     req_timeout := 10 |}.

End Observations.

(** ** Properties of computations *)

(** [m] leaves [last_states] as it found it, however it ends. *)
Definition frames {A : Type} (m : M A) : Prop :=
  forall w r w' t, m w = (r, w', t) -> last_states w' = last_states w.

(** Every event [m] emits satisfies [Q]. *)
Definition emits {A : Type} (Q : event -> Prop) (m : M A) : Prop :=
  forall w, Forall Q (m w).2.

(** Two networks that answer every call made through a session alike; they
    may differ on what the webhook's sink answers. *)
Definition agree_on_fetches (net net' : network) : Prop :=
  forall n rq, req_client rq <> ViaRequests -> net' n rq = net n rq.

(** Two computations that run alike from every state. *)
Definition run_eq {A : Type} (m m' : M A) : Prop := forall w, m w = m' w.

(** A session carrying the retry adapter on both schemes. *)
Definition mounted (s : Session) : Prop :=
  adapters s = [("https://", {| max_retries := retry_strategy |});
                ("http://", {| max_retries := retry_strategy |})].

(** How each call of the program goes out: through a session, under the
    retry policy of [create_authenticated_session]; or through
    [requests.post], to the webhook, under some other policy or none. *)
Definition call_as_configured (e : event) : Prop :=
  match e with
  | EvRequest rq =>
      match req_client rq with
      | ViaSession _ =>
          retry_policy rq
          = Some {| total := 3; backoff_factor := 1;
                    status_forcelist := [429; 500; 502; 503; 504];
                    allowed_methods := ["HEAD"; "GET"; "OPTIONS"; "POST"] |}
      | ViaRequests =>
          req_method rq = POST /\ req_url rq = Config.DISCORD_WEBHOOK /\
          retry_policy rq <> Some retry_strategy
      end
  | EvSleep _ => True
  end.

(** ** Sample data

    A platform, a few networks and a few records to run the program on.  The
    sample records hold no float and no string in a container, so the two
    [repr] stand-ins are never consulted. *)

Definition sample_platform : Platform :=
  {| float_repr := fun _ => "nan";
     str_repr := fun s => "'" +:+ s +:+ "'";
     json_error_is_request_exception := true |}.

(** No call gets through. *)
Definition dead_network : network := fun _ _ => Failed.

Definition respond (status : Z) (b : option value) : outcome :=
  Responded {| status_code := status; resp_headers := []; body := b |}.

(** Every endpoint answers as documented; user 5 is online. *)
Definition live_network : network :=
  fun _ rq =>
    if String.eqb (req_url rq) Config.PRESENCE_URL then
      respond 200 (Some (PDict [("userPresences",
        PList [PDict [("userId", PInt 5); ("userPresenceType", PInt 1)]])]))
    else if startswith (req_url rq) (Config.USERS_URL_format EmptyString) then
      respond 200 (Some (PDict [("name", PStr "builderman"); ("displayName", PStr "Builder")]))
    else if startswith (req_url rq) (Config.GAMES_URL_format EmptyString) then
      respond 200 (Some (PDict [("data", PList [PDict [("name", PStr "Obby")]])]))
    else respond 204 None.

Definition fresh_world : world := {| last_states := ∅; clock := 0 |}.

(** User 6 was last seen online. *)
Definition seen_world : world := {| last_states := {["6" := PInt 1]}; clock := 0 |}.

Definition online_record : value :=
  PDict [("userId", PInt 5); ("userPresenceType", PInt 1)].

(** A presence type the loop has no branch for. *)
Definition studio_record : value :=
  PDict [("userId", PInt 5); ("userPresenceType", PInt 3)].

(** In a game, but with a place id of 0. *)
Definition place_zero_record : value :=
  PDict [("userId", PInt 5); ("userPresenceType", PInt 2);
         ("placeId", PInt 0); ("gameId", PStr "f3a1"); ("universeId", PInt 99)].

Definition in_game_record : value :=
  PDict [("userId", PInt 5); ("userPresenceType", PInt 2);
         ("placeId", PInt 10); ("gameId", PInt 20); ("universeId", PInt 99)].

(** In a game, with joins off. *)
Definition private_record : value :=
  PDict [("userId", PInt 5); ("userPresenceType", PInt 2)].

(** As [live_network], but user 5 is in a game, on place 10, server 20,
    universe 99. *)
Definition playing_network : network :=
  fun n rq =>
    if String.eqb (req_url rq) Config.PRESENCE_URL then
      respond 200 (Some (PDict [("userPresences",
        PList [PDict [("userId", PStr "5"); ("userPresenceType", PInt 2);
                      ("placeId", PInt 10); ("gameId", PInt 20);
                      ("universeId", PInt 99)]])]))
    else live_network n rq.

(** Every call answers 200 with an empty [data]. *)
Definition gameless_network : network :=
  fun _ _ => respond 200 (Some (PDict [("data", PList [])])).

(** The presence endpoint answers 200 with one record that has no
    [userId]; every other call fails. *)
Definition nameless_network : network :=
  fun _ rq =>
    if String.eqb (req_url rq) Config.PRESENCE_URL then
      respond 200 (Some (PDict [("userPresences",
        PList [PDict [("userPresenceType", PInt 1)]])]))
    else Failed.

(** The presence endpoint answers 200 with a number for [userPresences]. *)
Definition shapeless_network : network :=
  fun _ rq =>
    if String.eqb (req_url rq) Config.PRESENCE_URL then
      respond 200 (Some (PDict [("userPresences", PInt 7)]))
    else Failed.

(** The profile endpoint answers 200 with a JSON list. *)
Definition listing_network : network :=
  fun _ rq =>
    if startswith (req_url rq) (Config.USERS_URL_format EmptyString) then
      respond 200 (Some (PList []))
    else live_network 0%nat rq.

(** The game endpoint answers 200 with a JSON list; user 5 is in a game. *)
Definition game_listing_network : network :=
  fun n rq =>
    if startswith (req_url rq) (Config.GAMES_URL_format EmptyString) then
      respond 200 (Some (PList []))
    else playing_network n rq.

(** ** Further observations *)

(** The session at the moment [create_authenticated_session] sends the seed
    request: cookie set, adapters mounted, headers not yet updated. *)
Definition seeding_session : Session :=
  {| cookies := [(".ROBLOSECURITY", Config.COOKIE)];
     headers := [];
     adapters := [("https://", {| max_retries := retry_strategy |});
                  ("http://", {| max_retries := retry_strategy |})] |}.

Definition seed_request : request :=
  {| req_client := ViaSession seeding_session; req_method := POST;
     req_url := Config.PRESENCE_URL;
     req_headers := [("User-Agent", "Mozilla/5.0")];
     req_json := Some (PDict [("userIds", PList [PStr Config.TEST_USER_ID])]);
     req_timeout := 10 |}.

(** The token an answer to the seed request carries: status 403 with an
    [x-csrf-token] header, in any spelling of upper and lower case. *)
Definition csrf_token (o : outcome) : option string :=
  match o with
  | Responded r => if status_code r =? 403 then header r "x-csrf-token" else None
  | Failed => None
  end.

(** An answer with a status that [raise_for_status] lets through. *)
Definition good_answer (o : outcome) (b : option value) : Prop :=
  exists r, o = Responded r /\ fetch_failed o = false /\ body r = b.

(** Bounds on what a computation spends: HTTP calls and notifications. *)
Definition spends {A : Type} (calls notes : nat) (m : M A) : Prop :=
  forall w r w' t,
    m w = (r, w', t) ->
    (clock w' <= clock w + calls)%nat /\ (length (notifications t) <= notes)%nat.

(** [m] never drops a key of [last_states]. *)
Definition keeps_keys {A : Type} (m : M A) : Prop :=
  forall w r w' t, m w = (r, w', t) -> dom (last_states w) ⊆ dom (last_states w').

(** An embed as the sink needs it: a string for a title and one of the
    four colours of the program. *)
Definition embed_ok (embed : value) : bool :=
  match embed with
  | PDict items =>
      match dict_lookup "title" items, dict_lookup "color" items with
      | Some (PStr _), Some (PInt c) =>
          existsb (Z.eqb c) [0xFF0000; 0xFFFF00; 0x00FF00; 0x00FFFF]
      | _, _ => false
      end
  | _ => false
  end.

Definition sends_ok_embeds (e : event) : Prop :=
  match webhook_embed e with
  | Some embed => embed_ok embed = true
  | None => True
  end.

Section FurtherObservations.
Context {P : Platform}.

(** The state a record reports. *)
Definition record_state (presence : value) : option value :=
  match get presence "userPresenceType" (PInt 0) with
  | Ok state => Some state
  | Raise _ => None
  end.

(** A record the table already agrees with. *)
Definition settled (ls : gmap string value) (presence : value) : Prop :=
  exists user_id state,
    record_user presence = Some user_id /\
    record_state presence = Some state /\
    py_ne state (default PNone (ls !! user_id)) = false.

End FurtherObservations.

(** The seed request is refused with a token under a mixed-case header;
    every other call fails. *)
Definition token_network : network :=
  fun n rq =>
    match n with
    | O => Responded {| status_code := 403;
                        resp_headers := [("X-CSRF-Token", "t0k3n")];
                        body := None |}
    | _ => Failed
    end.

(** User 5 was last seen online. *)
Definition settled_world : world := {| last_states := {["5" := PInt 1]}; clock := 7 |}.

(** Every call answers 200 with a body that is not JSON. *)
Definition garbled_network : network := fun _ _ => respond 200 None.

(** User 5 in a game, the record naming no universe. *)
Definition universeless_record : value :=
  PDict [("userId", PInt 5); ("userPresenceType", PInt 2);
         ("placeId", PInt 10); ("gameId", PInt 20)].

(** A platform with a [requests] older than 2.27. *)
Definition old_platform : Platform :=
  {| float_repr := fun _ => "nan";
     str_repr := fun s => "'" +:+ s +:+ "'";
     json_error_is_request_exception := false |}.

(** * Properties *)

Section Properties.
Context {P : Platform}.
Implicit Types (net : network) (w : world) (s : Session) (t : list event).

(** ** Running the monad *)

Lemma bind_lift_ok {A B : Type} (a : A) (f : A -> M B) w :
  bind (lift (Ok a)) f w = f a w.
Proof. unfold bind, lift. by destruct (f a w) as [[??]?]. Qed.

Lemma bind_lift_raise {A B : Type} (e : exn) (f : A -> M B) w :
  bind (lift (Raise e)) f w = (Raise e, w, []).
Proof. reflexivity. Qed.

(** ** One call, one tick, one event *)

Lemma send_webhook_run net embed w :
  send_webhook net embed w = (Ok tt, tick w, [EvRequest (webhook_request embed)]).
Proof.
  unfold send_webhook, try_except, bind, requests_post, send, raise_for_status,
    webhook_request, raise, ret.
  destruct (net (clock w) _) as [|r]; simpl; [done|].
  by destruct (_ && _).
Qed.

Local Ltac ran := eexists; reflexivity.

Lemma get_user_info_run net s u w :
  exists r, get_user_info net s u w = (r, tick w, [EvRequest (user_info_request s u)]).
Proof.
  unfold get_user_info, try_except, bind, session_get, send, raise_for_status,
    json, user_info_request, raise, ret, lift.
  destruct (net (clock w) _) as [|r]; simpl; [ran|].
  destruct (_ && _); simpl; [ran|].
  destruct (body r) as [v|]; simpl.
  - destruct v; simpl; ran.
  - destruct json_error_is_request_exception; ran.
Qed.

Lemma get_game_info_run net s uni w :
  exists r, get_game_info net s uni w = (r, tick w, [EvRequest (game_info_request s uni)]).
Proof.
  unfold get_game_info, try_except, bind, session_get, send, raise_for_status,
    json, game_info_request, raise, ret, lift.
  destruct (net (clock w) _) as [|r]; simpl; [ran|].
  destruct (_ && _); simpl; [ran|].
  destruct (body r) as [v|]; simpl.
  - destruct v; simpl; try ran.
    destruct (truthy _); simpl; [|ran].
    destruct (rbind _ _) as [?|[]]; simpl; try ran;
      destruct json_error_is_request_exception; ran.
  - destruct json_error_is_request_exception; ran.
Qed.

Lemma get_presence_run net s ids w :
  exists r, get_presence net s ids w = (r, tick w, [EvRequest (presence_request s ids)]).
Proof.
  unfold get_presence, try_except, bind, session_post, send, raise_for_status,
    json, presence_request, raise, ret, lift.
  destruct (net (clock w) _) as [|r]; simpl; [ran|].
  destruct (_ && _); simpl; [ran|].
  destruct (body r) as [v|]; simpl.
  - destruct v; simpl; ran.
  - destruct json_error_is_request_exception; ran.
Qed.


Lemma bind_inv {A B : Type} (m : M A) (f : A -> M B) w r w' t :
  bind m f w = (r, w', t) ->
  (exists e, m w = (Raise e, w', t) /\ r = Raise e) \/
  (exists a w1 t1 t2, m w = (Ok a, w1, t1) /\ f a w1 = (r, w', t2) /\ t = t1 ++ t2).
Proof.
  unfold bind. destruct (m w) as [[[a|e] w1] t1].
  - destruct (f a w1) as [[r2 w2] t2] eqn:Hf. intros [= <- <- <-].
    right. by exists a, w1, t1, t2.
  - intros [= <- <- <-]. left. by exists e.
Qed.

Lemma bind_inv_ok {A B : Type} (m : M A) (f : A -> M B) w b w' t :
  bind m f w = (Ok b, w', t) ->
  exists a w1 t1 t2, m w = (Ok a, w1, t1) /\ f a w1 = (Ok b, w', t2) /\ t = t1 ++ t2.
Proof.
  intros [(e & _ & [=])|H]%bind_inv. exact H.
Qed.

Lemma bind_get_last_states {B : Type} (f : gmap string value -> M B) w :
  bind get_last_states f w = f (last_states w) w.
Proof. unfold bind, get_last_states. by destruct (f _ w) as [[??]?]. Qed.

Lemma notifications_app t1 t2 :
  notifications (t1 ++ t2) = notifications t1 ++ notifications t2.
Proof. apply omap_app. Qed.

(** ** Computations that do not touch the table *)

Lemma frames_ret {A : Type} (a : A) : frames (ret a).
Proof. by intros w r w' t [= _ <- _]. Qed.

Lemma frames_lift {A : Type} (r : result A) : frames (lift r).
Proof. by intros w r' w' t [= _ <- _]. Qed.

Lemma frames_bind {A B : Type} (m : M A) (f : A -> M B) :
  frames m -> (forall a, frames (f a)) -> frames (bind m f).
Proof.
  intros Hm Hf w r w' t [(e & H & _)|(a & w1 & t1 & t2 & H1 & H2 & _)]%bind_inv.
  - by eapply Hm.
  - rewrite (Hf _ _ _ _ _ H2). by eapply Hm.
Qed.

Lemma frames_if {A : Type} (c : bool) (m m' : M A) :
  frames m -> frames m' -> frames (if c then m else m').
Proof. by destruct c. Qed.

Lemma frames_send_webhook net embed : frames (send_webhook net embed).
Proof. intros w r w' t. rewrite send_webhook_run. by intros [= _ <- _]. Qed.

Lemma frames_get_user_info net s u : frames (get_user_info net s u).
Proof.
  intros w r w' t. destruct (get_user_info_run net s u w) as [r' ->].
  by intros [= _ <- _].
Qed.

Lemma frames_get_game_info net s uni : frames (get_game_info net s uni).
Proof.
  intros w r w' t. destruct (get_game_info_run net s uni w) as [r' ->].
  by intros [= _ <- _].
Qed.

Lemma frames_get_presence net s ids : frames (get_presence net s ids).
Proof.
  intros w r w' t. destruct (get_presence_run net s ids w) as [r' ->].
  by intros [= _ <- _].
Qed.

Lemma frames_sleep n : frames (sleep n).
Proof. by intros w r w' t [= _ <- _]. Qed.

Create HintDb frames.
#[local] Hint Resolve frames_ret frames_lift frames_bind frames_if frames_send_webhook
  frames_get_user_info frames_get_game_info frames_get_presence frames_sleep : frames.


(** ** One record *)

Lemma build_embed_in_game_total d uid game_name username display_name :
  dict_lookup "userId" d = Some uid ->
  exists embed, build_embed_in_game (PDict d) game_name username display_name = Ok embed.
Proof.
  intros Huid. unfold build_embed_in_game. simpl. rewrite Huid. simpl.
  destruct (_ && _); by eexists.
Qed.

Local Ltac framed H :=
  match type of H with
  | ?m _ = _ =>
      let Hfr := fresh in
      assert (frames m) as Hfr by auto 10 with frames; apply Hfr in H; clear Hfr
  end.

Local Ltac enter_record Hrun Huid :=
  unfold process_presence in Hrun; simpl getitem in Hrun; rewrite Huid in Hrun;
  rewrite bind_lift_ok in Hrun; simpl get in Hrun; rewrite bind_lift_ok in Hrun;
  rewrite bind_get_last_states in Hrun.

(** The table after a record: the record's key holds the new state when the
    state had changed and the body ran to its end; otherwise nothing moved. *)
Lemma process_presence_table net s d uid w r w' t :
  dict_lookup "userId" d = Some uid ->
  process_presence net s (PDict d) w = (r, w', t) ->
  let user_id := py_str uid in
  let state := default (PInt 0) (dict_lookup "userPresenceType" d) in
  last_states w' =
    match r with
    | Ok _ => if py_ne state (default PNone (last_states w !! user_id))
              then <[user_id := state]> (last_states w) else last_states w
    | Raise _ => last_states w
    end.
Proof.
  intros Huid Hrun user_id state. enter_record Hrun Huid.
  fold user_id state in Hrun.
  destruct (py_ne state _).
  2: { by injection Hrun as <- <- _. }
  apply bind_inv in Hrun as [(e & H & ->)|(names & w1 & t1 & t2 & Hu & Hrest & ->)].
  { by framed H. }
  framed Hu.
  apply bind_inv in Hrest as [(e & H & ->)|([] & w2 & t3 & t4 & Hsend & Hset & ->)].
  - framed H. by rewrite H.
  - framed Hsend. injection Hset as <- <- _. simpl. by rewrite Hsend, Hu.
Qed.

Lemma known_state_differs_from_None state :
  known_state state = true -> py_ne state PNone = true.
Proof.
  unfold known_state, py_ne. by destruct state as [| | | | |[]|[]].
Qed.

(** C1 (amended).  For a record whose processing runs to its end, at most one
    notification goes out, and one goes out exactly when the observed state
    differs from the table's entry for the user (an absent entry reading as
    [None]) and is one of 0, 1, 2.  So a first observation in one of these
    states notifies once, and a repeated state never does. *)
Theorem notification_iff_changed_to_known_state net s d uid w w' t :
  dict_lookup "userId" d = Some uid ->
  process_presence net s (PDict d) w = (Ok tt, w', t) ->
  let state := default (PInt 0) (dict_lookup "userPresenceType" d) in
  let last_state := default PNone (last_states w !! py_str uid) in
  (notifications t = [] \/ exists embed, notifications t = [embed]) /\
  (notifications t <> [] <->
     py_ne state last_state = true /\ known_state state = true) /\
  (last_states w !! py_str uid = None -> known_state state = true ->
     exists embed, notifications t = [embed]).
Proof.
  intros Huid Hrun state last_state.
  assert (notifications t =
            (if py_ne state last_state && known_state state
             then notifications t else []) /\
          (py_ne state last_state && known_state state = true ->
             exists embed, notifications t = [embed])) as [Hshape Hone].
  { enter_record Hrun Huid. fold state last_state in Hrun.
    destruct (py_ne state last_state); simpl.
    2: { injection Hrun as _ <-. by split. }
    apply bind_inv_ok in Hrun as (names & w1 & t1 & t2 & Hu & Hrest & ->).
    destruct (get_user_info_run net s (py_str uid) w) as [ru Hu'].
    rewrite Hu' in Hu. injection Hu as -> <- <-.
    apply bind_inv_ok in Hrest as ([] & w2 & t3 & t4 & Hsend & Hset & ->).
    injection Hset as _ <-. rewrite app_nil_r.
    unfold known_state.
    destruct (py_eq state (PInt 0)).
    { rewrite send_webhook_run in Hsend. injection Hsend as _ <-. split; eauto. }
    destruct (py_eq state (PInt 1)).
    { rewrite send_webhook_run in Hsend. injection Hsend as _ <-. split; eauto. }
    destruct (py_eq state (PInt 2)); simpl.
    2: { injection Hsend as _ <-. by split. }
    rewrite bind_lift_ok in Hsend.
    apply bind_inv_ok in Hsend as (game_name & w3 & t5 & t6 & Hgame & Hsend & ->).
    destruct (build_embed_in_game_total d uid game_name names.1 names.2 Huid)
      as [embed He].
    rewrite He, bind_lift_ok, send_webhook_run in Hsend. injection Hsend as _ <-.
    assert (notifications t5 = []) as Ht5.
    { destruct (truthy _).
      - destruct (get_game_info_run net s
                    (default PNone (dict_lookup "universeId" d)) (tick w)) as [rg Hg].
        rewrite Hg in Hgame. by injection Hgame as _ _ <-.
      - by injection Hgame as _ _ <-. }
    rewrite !notifications_app, Ht5. split; eauto. }
  destruct (py_ne state last_state && known_state state) eqn:Hc.
  - destruct (Hone eq_refl) as [embed He]. apply andb_prop in Hc as [??].
    rewrite He. split_and!; eauto. by split.
  - rewrite Hshape. split_and!; [by left| |].
    + split; [done|]. intros [H1 H2]. by rewrite H1, H2 in Hc.
    + intros Hnone Hk. subst last_state. rewrite Hnone in Hc. simpl in Hc.
      by rewrite (known_state_differs_from_None _ Hk), Hk in Hc.
Qed.

(** ** Fetchers under failure *)

Lemma get_presence_failed net s ids w :
  fetch_failed (net (clock w) (presence_request s ids)) = true ->
  get_presence net s ids w
  = (Ok (PList []), tick w, [EvRequest (presence_request s ids)]).
Proof.
  unfold get_presence, try_except, bind, session_post, send, raise_for_status,
    presence_request, fetch_failed.
  destruct (net (clock w) _) as [|r]; simpl; [done|]. by intros ->.
Qed.

Lemma get_game_info_failed net s uni w :
  fetch_failed (net (clock w) (game_info_request s uni)) = true ->
  get_game_info net s uni w
  = (Ok (PStr "Unknown Game"), tick w, [EvRequest (game_info_request s uni)]).
Proof.
  unfold get_game_info, try_except, bind, session_get, send, raise_for_status,
    game_info_request, fetch_failed.
  destruct (net (clock w) _) as [|r]; simpl; [done|]. by intros ->.
Qed.

Lemma get_user_info_failed net s u w :
  fetch_failed (net (clock w) (user_info_request s u)) = true ->
  get_user_info net s u w
  = (Ok (PNone, PNone), tick w, [EvRequest (user_info_request s u)]).
Proof.
  unfold get_user_info, try_except, bind, session_get, send, raise_for_status,
    user_info_request, fetch_failed.
  destruct (net (clock w) _) as [|r]; simpl; [done|]. by intros ->.
Qed.

(** A good response whose [data] is missing or empty names no game. *)
Lemma get_game_info_no_entry net s uni w r d :
  net (clock w) (game_info_request s uni) = Responded r ->
  fetch_failed (Responded r) = false ->
  body r = Some (PDict d) ->
  dict_lookup "data" d = None \/ dict_lookup "data" d = Some (PList []) ->
  get_game_info net s uni w
  = (Ok (PStr "Unknown Game"), tick w, [EvRequest (game_info_request s uni)]).
Proof.
  unfold get_game_info, try_except, bind, session_get, send, raise_for_status,
    json, game_info_request, fetch_failed.
  intros -> -> Hbody Hdata. simpl. rewrite Hbody. simpl.
  by destruct Hdata as [-> | ->].
Qed.

(** C7.  A fetch that ends in a network or HTTP failure hands back its
    fallback and raises nothing: the empty list, "Unknown Game", the pair
    (None, None); the game name is "Unknown Game" as well when a good
    response lists no game. *)
Theorem fetchers_fall_back_on_failure net s w :
  (forall ids, fetch_failed (net (clock w) (presence_request s ids)) = true ->
     (get_presence net s ids w).1.1 = Ok (PList [])) /\
  (forall uni, fetch_failed (net (clock w) (game_info_request s uni)) = true ->
     (get_game_info net s uni w).1.1 = Ok (PStr "Unknown Game")) /\
  (forall u, fetch_failed (net (clock w) (user_info_request s u)) = true ->
     (get_user_info net s u w).1.1 = Ok (PNone, PNone)) /\
  (forall uni r d,
     net (clock w) (game_info_request s uni) = Responded r ->
     fetch_failed (Responded r) = false ->
     body r = Some (PDict d) ->
     dict_lookup "data" d = None \/ dict_lookup "data" d = Some (PList []) ->
     (get_game_info net s uni w).1.1 = Ok (PStr "Unknown Game")).
Proof.
  split_and!.
  - intros ids H. by rewrite get_presence_failed.
  - intros uni H. by rewrite get_game_info_failed.
  - intros u H. by rewrite get_user_info_failed.
  - intros uni r d H1 H2 H3 H4. by erewrite get_game_info_no_entry.
Qed.

(** ** The sink's answer is never looked at *)

Lemma run_eq_refl {A : Type} (m : M A) : run_eq m m.
Proof. by intros w. Qed.

Lemma bind_ext {A B : Type} (m m' : M A) (f f' : A -> M B) :
  run_eq m m' -> (forall a, run_eq (f a) (f' a)) -> run_eq (bind m f) (bind m' f').
Proof.
  intros Hm Hf w. unfold bind. rewrite Hm.
  destruct (m' w) as [[[a|e] w1] t1]; [|done]. by rewrite Hf.
Qed.

Lemma if_ext {A : Type} (c : bool) (m1 m1' m2 m2' : M A) :
  run_eq m1 m1' -> run_eq m2 m2' ->
  run_eq (if c then m1 else m2) (if c then m1' else m2').
Proof. by destruct c. Qed.

Lemma try_except_ext {A : Type} (m m' : M A) handled (h : M A) :
  run_eq m m' -> run_eq (try_except m handled h) (try_except m' handled h).
Proof. intros Hm w. unfold try_except. by rewrite Hm. Qed.

Lemma for_each_ext {A : Type} (l : list A) (body body' : A -> M unit) :
  (forall x, run_eq (body x) (body' x)) ->
  run_eq (for_each l body) (for_each l body').
Proof.
  intros Hb. induction l as [|x l IH]; simpl; [apply run_eq_refl|].
  by apply bind_ext.
Qed.

Section Agreement.
Variables net net' : network.
Hypothesis Hagree : agree_on_fetches net net'.

Lemma session_get_agree s url timeout :
  run_eq (session_get net' s url timeout) (session_get net s url timeout).
Proof. intros w. unfold session_get, send. by rewrite Hagree. Qed.

Lemma session_post_agree s url hs j timeout :
  run_eq (session_post net' s url hs j timeout) (session_post net s url hs j timeout).
Proof. intros w. unfold session_post, send. by rewrite Hagree. Qed.

Lemma send_webhook_agree embed :
  run_eq (send_webhook net' embed) (send_webhook net embed).
Proof. intros w. by rewrite !send_webhook_run. Qed.

Create HintDb agree.
#[local] Hint Resolve run_eq_refl bind_ext if_ext try_except_ext for_each_ext
  session_get_agree session_post_agree send_webhook_agree : agree.

Lemma get_user_info_agree s u :
  run_eq (get_user_info net' s u) (get_user_info net s u).
Proof. unfold get_user_info. auto with agree. Qed.

Lemma get_game_info_agree s uni :
  run_eq (get_game_info net' s uni) (get_game_info net s uni).
Proof. unfold get_game_info. auto with agree. Qed.

Lemma get_presence_agree s ids :
  run_eq (get_presence net' s ids) (get_presence net s ids).
Proof. unfold get_presence. auto with agree. Qed.

#[local] Hint Resolve get_user_info_agree get_game_info_agree get_presence_agree : agree.

Lemma process_presence_agree s presence :
  run_eq (process_presence net' s presence) (process_presence net s presence).
Proof. unfold process_presence. auto 20 with agree. Qed.

#[local] Hint Resolve process_presence_agree : agree.

Lemma cycle_agree s ids : run_eq (cycle net' s ids) (cycle net s ids).
Proof. unfold cycle. auto 10 with agree. Qed.

Lemma loop_agree n s ids : run_eq (loop net' n s ids) (loop net n s ids).
Proof.
  induction n as [|n IH]; simpl; [apply run_eq_refl|].
  apply bind_ext; [apply cycle_agree|done].
Qed.

End Agreement.

(** ** A record is processed to the end when its fetches return *)

Lemma process_presence_completes net s d uid w :
  dict_lookup "userId" d = Some uid ->
  completes (get_user_info net s (py_str uid)) w ->
  completes (get_game_info net s (default PNone (dict_lookup "universeId" d))) (tick w) ->
  completes (process_presence net s (PDict d)) w.
Proof.
  intros Huid (names & wu & tu & Hu) (game & wg & tg & Hg).
  destruct (process_presence net s (PDict d) w) as [[[[]|e] w'] t] eqn:Hrun.
  { by exists tt, w', t. }
  exfalso. enter_record Hrun Huid.
  destruct (py_ne _ _); [|done].
  apply bind_inv in Hrun as [(e' & H & _)|(names' & w1 & t1 & t2 & Hu' & Hrest & _)].
  { by rewrite Hu in H. }
  destruct (get_user_info_run net s (py_str uid) w) as [ru Hw1].
  rewrite Hw1 in Hu'. injection Hu' as _ <- _.
  apply bind_inv in Hrest as [(e' & H & _)|(? & ? & ? & ? & _ & [=] & _)].
  destruct (py_eq _ (PInt 0)); [by rewrite send_webhook_run in H|].
  destruct (py_eq _ (PInt 1)); [by rewrite send_webhook_run in H|].
  destruct (py_eq _ (PInt 2)); [|done].
  rewrite bind_lift_ok in H.
  apply bind_inv in H as [(e'' & H & _)|(g & w3 & t5 & t6 & _ & H & _)].
  { destruct (truthy _); [by rewrite Hg in H|done]. }
  destruct (build_embed_in_game_total d uid g names'.1 names'.2 Huid) as [embed He].
  by rewrite He, bind_lift_ok, send_webhook_run in H.
Qed.

(** What does hold of the write for a record whose state differs from the
    table's entry: whenever the body runs to its end the record's key holds
    the new state; it does run to its end when every fetch fails, whatever
    the sink answers; and no answer of the sink changes this record's run
    or any later round. *)
Theorem changed_state_is_recorded net s d uid w :
  dict_lookup "userId" d = Some uid ->
  let user_id := py_str uid in
  let state := default (PInt 0) (dict_lookup "userPresenceType" d) in
  py_ne state (default PNone (last_states w !! user_id)) = true ->
  (forall w' t, process_presence net s (PDict d) w = (Ok tt, w', t) ->
     last_states w' = <[user_id := state]> (last_states w)) /\
  ((forall n rq, req_client rq <> ViaRequests -> fetch_failed (net n rq) = true) ->
     exists w' t, process_presence net s (PDict d) w = (Ok tt, w', t) /\
                  last_states w' !! user_id = Some state) /\
  (forall net', agree_on_fetches net net' ->
     process_presence net' s (PDict d) w = process_presence net s (PDict d) w /\
     forall n ids w0, loop net' n s ids w0 = loop net n s ids w0).
Proof.
  intros Huid user_id state Hne.
  assert (forall w' t, process_presence net s (PDict d) w = (Ok tt, w', t) ->
            last_states w' = <[user_id := state]> (last_states w)) as Hrec.
  { intros w' t Hrun. pose proof (process_presence_table _ _ _ _ _ _ _ _ Huid Hrun) as H.
    simpl in H. fold user_id state in H. by rewrite Hne in H. }
  split_and!; [exact Hrec| |].
  - intros Hfail.
    destruct (process_presence_completes net s d uid w Huid) as ([] & w' & t & Hrun).
    + eexists _, _, _. by apply get_user_info_failed, Hfail.
    + eexists _, _, _. by apply get_game_info_failed, Hfail.
    + exists w', t. split; [done|]. rewrite (Hrec _ _ Hrun). apply lookup_insert_eq.
  - intros net' Hagree. split.
    + by apply process_presence_agree.
    + intros n ids w0. by apply loop_agree.
Qed.

(** The write also happens on every run in which the fetches the record
    needs return, with a value or with their fallback. *)
Lemma changed_state_is_recorded_when_fetches_return net s d uid w :
  dict_lookup "userId" d = Some uid ->
  let user_id := py_str uid in
  let state := default (PInt 0) (dict_lookup "userPresenceType" d) in
  let universe_id := default PNone (dict_lookup "universeId" d) in
  py_ne state (default PNone (last_states w !! user_id)) = true ->
  completes (get_user_info net s user_id) w ->
  (py_eq state (PInt 2) = true -> truthy universe_id = true ->
     completes (get_game_info net s universe_id) (tick w)) ->
  exists w' t,
    process_presence net s (PDict d) w = (Ok tt, w', t) /\
    last_states w' = <[user_id := state]> (last_states w).
Proof.
  intros Huid user_id state universe_id Hne (names & wu & tu & Hu) Hgame.
  destruct (process_presence net s (PDict d) w) as [[[[]|e] w'] t] eqn:Hrun.
  { exists w', t. split; [done|].
    pose proof (process_presence_table _ _ _ _ _ _ _ _ Huid Hrun) as H.
    simpl in H. fold user_id state in H. by rewrite Hne in H. }
  exfalso. enter_record Hrun Huid. fold user_id state in Hrun. rewrite Hne in Hrun.
  apply bind_inv in Hrun as [(e' & H & _)|(names' & w1 & t1 & t2 & Hu' & Hrest & _)].
  { by rewrite Hu in H. }
  destruct (get_user_info_run net s user_id w) as [ru Hw1].
  rewrite Hw1 in Hu'. injection Hu' as _ <- _.
  apply bind_inv in Hrest as [(e' & H & _)|(? & ? & ? & ? & _ & [=] & _)].
  destruct (py_eq state (PInt 0)); [by rewrite send_webhook_run in H|].
  destruct (py_eq state (PInt 1)); [by rewrite send_webhook_run in H|].
  destruct (py_eq state (PInt 2)); [|done].
  rewrite bind_lift_ok in H. fold universe_id in H.
  apply bind_inv in H as [(e'' & H & _)|(g & w3 & t5 & t6 & _ & H & _)].
  { destruct (truthy universe_id); [|done].
    destruct (Hgame eq_refl eq_refl) as (game & wg & tg & Hg). by rewrite Hg in H. }
  destruct (build_embed_in_game_total d uid g names'.1 names'.2 Huid) as [embed He].
  by rewrite He, bind_lift_ok, send_webhook_run in H.
Qed.

(** ** The in-game embed *)

(** C3 (amended).  The in-game embed carries the join link and the game-page
    link exactly when the place id and the game id are both truthy; when
    either is missing, or is null, zero or empty, it is the "is in a game"
    embed, with no link at all. *)
Theorem join_link_iff_both_ids_truthy d uid game_name username display_name :
  dict_lookup "userId" d = Some uid ->
  let place_id := default PNone (dict_lookup "placeId" d) in
  let game_id := default PNone (dict_lookup "gameId" d) in
  let join_url := "https://www.roblox.com/games/start?placeId=" +:+ py_str place_id
                    +:+ "&gameId=" +:+ py_str game_id in
  let game_page_url := "https://www.roblox.com/games/" +:+ py_str place_id in
  exists embed,
    build_embed_in_game (PDict d) game_name username display_name = Ok (PDict embed) /\
    (truthy place_id = true -> truthy game_id = true ->
       dict_lookup "url" embed = Some (PStr join_url) /\
       dict_lookup "fields" embed =
         Some (PList [
           PDict [("name", PStr "Join Server");
                  ("value", PStr ("[Click Here](" +:+ join_url +:+ ")"));
                  ("inline", PBool true)];
           PDict [("name", PStr "Game Page");
                  ("value", PStr ("[View Game](" +:+ game_page_url +:+ ")"));
                  ("inline", PBool true)]])) /\
    (truthy place_id = false \/ truthy game_id = false ->
       dict_lookup "url" embed = None /\
       dict_lookup "fields" embed = None /\
       dict_lookup "title" embed =
         Some (PStr (py_str (py_or display_name username) +:+ " is in a game")) /\
       dict_lookup "description" embed =
         Some (PStr "Joins are off, check badges for hint of game.")) /\
    (dict_lookup "placeId" d = None \/ dict_lookup "gameId" d = None ->
       dict_lookup "url" embed = None /\ dict_lookup "fields" embed = None).
Proof.
  intros Huid place_id game_id join_url game_page_url.
  unfold build_embed_in_game. simpl. rewrite Huid. simpl.
  fold place_id game_id.
  assert (dict_lookup "placeId" d = None \/ dict_lookup "gameId" d = None ->
          truthy place_id && truthy game_id = false) as Habsent.
  { subst place_id game_id. intros [-> | ->]; simpl; [done|apply andb_false_r]. }
  destruct (truthy place_id) eqn:Hp, (truthy game_id) eqn:Hg; simpl in *;
    eexists; (split; [reflexivity|]); split_and!; try done;
    intros H; try (by destruct H); by specialize (Habsent H).
Qed.

(** ** Which client each call goes through *)

Lemma emits_ret {A : Type} Q (a : A) : emits Q (ret a).
Proof. intros w. constructor. Qed.

Lemma emits_lift {A : Type} Q (r : result A) : emits Q (lift r).
Proof. intros w. constructor. Qed.

Lemma emits_raise {A : Type} Q (e : exn) : emits Q (raise (A := A) e).
Proof. intros w. constructor. Qed.

Lemma emits_bind_post {A B : Type} Q (R : A -> Prop) (m : M A) (f : A -> M B) :
  (forall w a w1 t1, m w = (Ok a, w1, t1) -> R a) ->
  emits Q m -> (forall a, R a -> emits Q (f a)) -> emits Q (bind m f).
Proof.
  intros HR Hm Hf w. specialize (Hm w). unfold bind.
  destruct (m w) as [[[a|e] w1] t1] eqn:Hrun; [|done].
  specialize (Hf a (HR _ _ _ _ Hrun) w1).
  destruct (f a w1) as [[r w2] t2]. by apply Forall_app.
Qed.

Lemma emits_bind {A B : Type} Q (m : M A) (f : A -> M B) :
  emits Q m -> (forall a, emits Q (f a)) -> emits Q (bind m f).
Proof. intros Hm Hf. apply (emits_bind_post Q (fun _ => True)); auto. Qed.

Lemma emits_if {A : Type} Q (c : bool) (m m' : M A) :
  emits Q m -> emits Q m' -> emits Q (if c then m else m').
Proof. by destruct c. Qed.

Lemma emits_try_except {A : Type} Q (m : M A) handled (h : M A) :
  emits Q m -> emits Q h -> emits Q (try_except m handled h).
Proof.
  intros Hm Hh w. specialize (Hm w). unfold try_except.
  destruct (m w) as [[[a|e] w1] t1]; [done|].
  destruct (handled e); [|done]. specialize (Hh w1).
  destruct (h w1) as [[r w2] t2]. by apply Forall_app.
Qed.

Lemma emits_for_each {A : Type} Q (l : list A) (body : A -> M unit) :
  (forall x, emits Q (body x)) -> emits Q (for_each l body).
Proof.
  intros Hb. induction l as [|x l IH]; simpl; [apply emits_ret|].
  by apply emits_bind.
Qed.

Lemma emits_send Q net rq : Q (EvRequest rq) -> emits Q (send net rq).
Proof.
  intros HQ w. unfold send. destruct (net _ _); by repeat constructor.
Qed.

Lemma plain_client_has_no_retry_strategy url m hs j timeout :
  retry_policy {| req_client := ViaRequests; req_method := m; req_url := url;
                  req_headers := hs; req_json := j; req_timeout := timeout |}
  <> Some retry_strategy.
Proof.
  unfold retry_policy, get_adapter. simpl.
  destruct (startswith _ _); [done|]. by destruct (startswith _ _).
Qed.

Lemma mounted_policy s url :
  mounted s -> startswith (lower url) (lower "https://") = true ->
  max_retries <$> get_adapter s url = Some retry_strategy.
Proof.
  intros Hs Hurl. unfold get_adapter. rewrite Hs.
  cbn [List.find fst]. by rewrite Hurl.
Qed.

Lemma configured_session_post net s url hs j timeout :
  mounted s -> startswith (lower url) (lower "https://") = true ->
  emits call_as_configured (session_post net s url hs j timeout).
Proof. intros Hs Hurl. apply emits_send. by apply mounted_policy. Qed.

Lemma configured_session_get net s url timeout :
  mounted s -> startswith (lower url) (lower "https://") = true ->
  emits call_as_configured (session_get net s url timeout).
Proof. intros Hs Hurl. apply emits_send. by apply mounted_policy. Qed.

Lemma configured_send_webhook net embed :
  emits call_as_configured (send_webhook net embed).
Proof.
  intros w. rewrite send_webhook_run. repeat constructor.
  apply plain_client_has_no_retry_strategy.
Qed.

Lemma emits_raise_for_status Q r : emits Q (raise_for_status r).
Proof. unfold raise_for_status. destruct (_ && _); intros w; constructor. Qed.

Lemma emits_json Q r : emits Q (json r).
Proof. unfold json. destruct (body r); intros w; constructor. Qed.

Lemma emits_sleep Q n : Q (EvSleep n) -> emits Q (sleep n).
Proof. intros HQ w. by repeat constructor. Qed.

Lemma emits_get_last_states Q : emits Q get_last_states.
Proof. intros w. constructor. Qed.

Lemma emits_set_last_state Q k v : emits Q (set_last_state k v).
Proof. intros w. constructor. Qed.

Create HintDb emits.
#[local] Hint Resolve emits_ret emits_lift emits_raise emits_bind emits_if
  emits_try_except emits_for_each emits_raise_for_status emits_json
  emits_get_last_states emits_set_last_state configured_send_webhook : emits.

Section Configured.
Variable net : network.
Variable s : Session.
Hypothesis Hs : mounted s.

Lemma configured_get_presence ids :
  emits call_as_configured (get_presence net s ids).
Proof.
  unfold get_presence. apply emits_try_except; [|auto with emits].
  apply emits_bind; [by apply configured_session_post|auto with emits].
Qed.

Lemma configured_get_game_info uni :
  emits call_as_configured (get_game_info net s uni).
Proof.
  unfold get_game_info. apply emits_try_except; [|auto with emits].
  apply emits_bind; [by apply configured_session_get|auto 10 with emits].
Qed.

Lemma configured_get_user_info u :
  emits call_as_configured (get_user_info net s u).
Proof.
  unfold get_user_info. apply emits_try_except; [|auto with emits].
  apply emits_bind; [by apply configured_session_get|auto 10 with emits].
Qed.

#[local] Hint Resolve configured_get_presence configured_get_game_info
  configured_get_user_info : emits.

Lemma configured_process_presence presence :
  emits call_as_configured (process_presence net s presence).
Proof.
  unfold process_presence. auto 20 with emits.
Qed.

Lemma configured_cycle ids : emits call_as_configured (cycle net s ids).
Proof.
  unfold cycle.
  apply emits_bind; [auto with emits|intros presences].
  apply emits_bind; [auto with emits|intros records].
  apply emits_bind; [|intros; by apply emits_sleep].
  apply emits_for_each, configured_process_presence.
Qed.

Lemma configured_loop n ids : emits call_as_configured (loop net n s ids).
Proof.
  induction n as [|n IH]; simpl; [auto with emits|].
  apply emits_bind; [apply configured_cycle|done].
Qed.

End Configured.

Lemma create_authenticated_session_mounted net w session w1 t1 :
  create_authenticated_session net w = (Ok session, w1, t1) -> mounted session.
Proof.
  unfold create_authenticated_session.
  intros (hs & w2 & t2 & t3 & _ & [= <- _ _] & _)%bind_inv_ok. reflexivity.
Qed.

Lemma configured_create_authenticated_session net :
  emits call_as_configured (create_authenticated_session net).
Proof.
  unfold create_authenticated_session.
  apply emits_bind; [|auto with emits].
  apply emits_try_except; [|auto with emits].
  apply emits_bind.
  - by apply configured_session_post.
  - intros r. destruct (status_code r =? 403), (header r "x-csrf-token"); auto with emits.
Qed.

(** C5 (amended).  Every call made through the session (the CSRF seed
    request and the three fetches) runs under the retry policy with 3
    retries, backoff factor 1, statuses 429, 500, 502, 503, 504 and methods
    HEAD, GET, OPTIONS, POST; the only other calls are the POSTs to the
    webhook, which go out through [requests.post] and not under it. *)
Theorem session_calls_run_under_retry_policy net users_json n w :
  Forall call_as_configured (main net users_json n w).2.
Proof.
  revert w. change (emits call_as_configured (main net users_json n)).
  unfold main.
  apply (emits_bind_post _ mounted).
  - apply create_authenticated_session_mounted.
  - apply configured_create_authenticated_session.
  - intros session Hs. apply emits_if; [auto with emits|].
    apply emits_bind; [intros w; constructor|intros _].
    by apply configured_loop.
Qed.

(** ** One round of the loop *)

(** C8.  A round whose presence fetch comes back empty, be it an empty
    answer or the fallback of a failed fetch, ends normally, leaves
    [last_states] as it was and sends no notification. *)
Theorem empty_presence_result_changes_nothing net s ids w :
  (exists presences, (get_presence net s ids w).1.1 = Ok presences /\
                     iterate presences = Ok []) \/
  fetch_failed (net (clock w) (presence_request s ids)) = true ->
  let run := cycle net s ids w in
  run.1.1 = Ok tt /\ last_states run.1.2 = last_states w /\ notifications run.2 = [].
Proof.
  intros H.
  assert (exists presences, get_presence net s ids w
            = (Ok presences, tick w, [EvRequest (presence_request s ids)]) /\
          iterate presences = Ok []) as (presences & Hrun & Hiter).
  { destruct H as [(presences & Hres & Hiter)|Hfail].
    - destruct (get_presence_run net s ids w) as [r Hrun]. rewrite Hrun in Hres.
      simpl in Hres. subst r. by exists presences.
    - exists (PList []). split; [by apply get_presence_failed|done]. }
  unfold cycle, bind. rewrite Hrun, Hiter. by simpl.
Qed.

(** C9.  A record without [userPresenceType] is read as state 0.  When 0
    differs from the table's entry and the profile fetch returns, the body
    runs to its end, sends the one "is Offline" notification and files 0
    under the user. *)
Theorem missing_presence_type_reads_as_offline net s d uid w username display_name w1 t1 :
  dict_lookup "userId" d = Some uid ->
  dict_lookup "userPresenceType" d = None ->
  let user_id := py_str uid in
  py_ne (PInt 0) (default PNone (last_states w !! user_id)) = true ->
  get_user_info net s user_id w = (Ok (username, display_name), w1, t1) ->
  exists w' t,
    process_presence net s (PDict d) w = (Ok tt, w', t) /\
    notifications t
    = [PDict [("title", PStr (py_str (py_or (py_or display_name username) (PStr user_id))
                               +:+ " is Offline"));
              ("color", PInt 0xFF0000)]] /\
    last_states w' = <[user_id := PInt 0]> (last_states w).
Proof.
  intros Huid Hnone user_id Hne Hu.
  destruct (get_user_info_run net s user_id w) as [ru Hu'].
  rewrite Hu' in Hu. injection Hu as -> <- <-.
  unfold process_presence. simpl getitem. rewrite Huid, bind_lift_ok.
  simpl get. rewrite Hnone, bind_lift_ok, bind_get_last_states.
  fold user_id. change (default (PInt 0) None) with (PInt 0). rewrite Hne.
  unfold bind. rewrite Hu'. change (py_eq (PInt 0) (PInt 0)) with true. cbv iota.
  rewrite send_webhook_run. simpl.
  by eexists _, _.
Qed.

(** ** Users without a record in a round *)

Lemma process_presence_other_key net s presence w r w' t u :
  record_user presence <> Some u ->
  process_presence net s presence w = (r, w', t) ->
  last_states w' !! u = last_states w !! u.
Proof.
  unfold record_user. intros Hu Hrun.
  destruct (getitem presence "userId") as [uid|e] eqn:Hget.
  - destruct presence as [| | | | | |d]; try done. simpl in Hget.
    destruct (dict_lookup "userId" d) as [uid'|] eqn:Huid; [|done].
    injection Hget as ->.
    rewrite (process_presence_table _ _ _ _ _ _ _ _ Huid Hrun).
    destruct r; [|done]. destruct (py_ne _ _); [|done].
    apply lookup_insert_ne. congruence.
  - unfold process_presence in Hrun. rewrite Hget, bind_lift_raise in Hrun.
    by injection Hrun as _ <- _.
Qed.

Lemma for_each_other_key {A : Type} (l : list A) (body : A -> M unit) u :
  (forall x, x ∈ l -> forall w r w' t,
     body x w = (r, w', t) -> last_states w' !! u = last_states w !! u) ->
  forall w r w' t,
    for_each l body w = (r, w', t) -> last_states w' !! u = last_states w !! u.
Proof.
  induction l as [|x l IH]; intros Hbody w r w' t Hrun.
  - by injection Hrun as _ <- _.
  - simpl in Hrun.
    apply bind_inv in Hrun as [(e & H & _)|([] & w1 & t1 & t2 & H1 & H2 & _)].
    + eapply Hbody; [left|done].
    + etrans; [eapply IH; [|done]|eapply Hbody; [left|done]].
      intros y Hy. apply Hbody. by right.
Qed.

(** The notifications of a loop are those of its iterations, in order. *)
Lemma notifications_for_each {A : Type} (l : list A) (body : A -> M unit) w :
  notifications (for_each l body w).2
  = flat_map (fun it => notifications (snd it)) (iterations l body w).
Proof.
  revert w. induction l as [|x l IH]; intros w; [done|].
  simpl. unfold bind. destruct (body x w) as [[[[]|e] w1] t1]; simpl.
  - rewrite <- IH. destruct (for_each l body w1) as [[r w2] t2]. simpl.
    apply notifications_app.
  - by rewrite app_nil_r.
Qed.

Lemma notifications_for_absent u (its : list (value * list event)) :
  (forall it, it ∈ its -> record_user (fst it) <> Some u) ->
  notifications_for u its = [].
Proof.
  intros Hits. unfold notifications_for.
  induction its as [|it its IH]; [done|]. simpl.
  rewrite IH; [|intros ??; apply Hits; by right].
  destruct (decide _) as [Heq|]; [|done]. by destruct (Hits it (list_elem_of_here _ _)).
Qed.

(** Each iteration is a run of the body. *)
Lemma iterations_runs {A : Type} (l : list A) (body : A -> M unit) w it :
  it ∈ iterations l body w -> exists w0 r w', body (fst it) w0 = (r, w', snd it).
Proof.
  revert w. induction l as [|x l IH]; intros w; simpl; [by intros ?%elem_of_nil|].
  destruct (body x w) as [[[[]|e] w1] t1] eqn:Hrun.
  - intros [->|H]%elem_of_cons; [by exists w, (Ok tt), w1|by eapply IH].
  - intros ->%list_elem_of_singleton. by exists w, (Raise e), w1.
Qed.

Lemma iterations_elements {A : Type} (l : list A) (body : A -> M unit) w it :
  it ∈ iterations l body w -> fst it ∈ l.
Proof.
  revert w. induction l as [|x l IH]; intros w; simpl; [by intros ?%elem_of_nil|].
  destruct (body x w) as [[[[]|e] w1] t1].
  - intros [->|H]%elem_of_cons; [left|right; by eapply IH].
  - intros ->%list_elem_of_singleton. left.
Qed.

(** C10.  In a round, a user none of whose records came back keeps the
    table entry the round started with, and none of the round's
    notifications, each of which belongs to one iteration of the loop, was
    sent for that user. *)
Theorem user_without_record_is_left_alone net s ids w presences w1 t1 records u :
  get_presence net s ids w = (Ok presences, w1, t1) ->
  iterate presences = Ok records ->
  (forall presence, presence ∈ records -> record_user presence <> Some u) ->
  let run := cycle net s ids w in
  let its := iterations records (process_presence net s) w1 in
  last_states run.1.2 !! u = last_states w !! u /\
  notifications run.2 = flat_map (fun it => notifications (snd it)) its /\
  notifications_for u its = [].
Proof.
  intros Hrun Hiter Habsent run its.
  destruct (get_presence_run net s ids w) as [r Hrun'].
  rewrite Hrun' in Hrun. injection Hrun as -> <- <-.
  pose proof (notifications_for_each records (process_presence net s) (tick w)) as Hn.
  assert (forall r w' t, for_each records (process_presence net s) (tick w) = (r, w', t) ->
            last_states w' !! u = last_states w !! u) as Hframe.
  { intros r w' t H.
    apply (for_each_other_key records (process_presence net s) u) in H; [done|].
    intros p Hp w0 r0 w0' t0. by apply process_presence_other_key, Habsent. }
  subst run its. unfold cycle, bind. rewrite Hrun', Hiter. simpl.
  destruct (for_each records (process_presence net s) (tick w)) as [[[[]|e] w2] t2] eqn:Hloop;
    simpl in *.
  - split_and!; [by eapply Hframe| |].
    + by rewrite notifications_app, <- Hn, app_nil_r.
    + apply notifications_for_absent.
      intros it Hit. by apply Habsent, (iterations_elements _ _ _ _ Hit).
  - split_and!; [by eapply Hframe|done|].
    apply notifications_for_absent.
    intros it Hit. by apply Habsent, (iterations_elements _ _ _ _ Hit).
Qed.

(** ** Setting up the session *)

Lemma create_authenticated_session_run net w :
  create_authenticated_session net w
  = (Ok {| cookies := cookies seeding_session;
           headers := ("User-Agent", "Mozilla/5.0") ::
                      match csrf_token (net (clock w) seed_request) with
                      | Some token => [("X-CSRF-TOKEN", token)]
                      | None => []
                      end;
           adapters := adapters seeding_session |},
     tick w, [EvRequest seed_request]).
Proof.
  unfold create_authenticated_session, try_except, bind, session_post, send, csrf_token.
  change (mount "http://" _ (mount "https://" _ _)) with seeding_session.
  fold seed_request.
  destruct (net (clock w) seed_request) as [|r]; simpl; [done|].
  destruct (status_code r =? 403); [|done].
  by destruct (header r "x-csrf-token").
Qed.

(** X1.  Setting up the session never raises, whatever the seed request
    meets: it makes exactly one call, the POST of the test user to the
    presence endpoint with the User-Agent header and a timeout of 10, and
    leaves the table alone. *)
Theorem session_setup_never_fails net w :
  exists session,
    create_authenticated_session net w = (Ok session, tick w, [EvRequest seed_request]) /\
    last_states (tick w) = last_states w.
Proof. eexists. split; [apply create_authenticated_session_run|done]. Qed.

(** X2.  The session that comes back carries the cookie, the User-Agent
    header and, exactly when the seed request was answered 403 with an
    x-csrf-token header, that token as X-CSRF-TOKEN. *)
Theorem session_carries_token_when_given net w session w' t :
  create_authenticated_session net w = (Ok session, w', t) ->
  cookies session = [(".ROBLOSECURITY", Config.COOKIE)] /\
  headers session
  = ("User-Agent", "Mozilla/5.0") ::
    match csrf_token (net (clock w) seed_request) with
    | Some token => [("X-CSRF-TOKEN", token)]
    | None => []
    end.
Proof. rewrite create_authenticated_session_run. by intros [= <- _ _]. Qed.

(** X3.  Without a usable list of users (the file unreadable, or holding an
    empty list or any other falsy value) the program ends normally after
    the seed request: no presence fetch, no notification, no sleep, and the
    table as it was. *)
Theorem no_users_no_polling net users_json n w :
  truthy (load_user_ids users_json) = false ->
  main net users_json n w = (Ok tt, tick w, [EvRequest seed_request]).
Proof.
  intros Hnone. unfold main, bind. rewrite create_authenticated_session_run, Hnone.
  reflexivity.
Qed.

(** X4.  With users to track, the program starts from an empty table:
    nothing of the table it is started with shows in its run. *)
Theorem startup_forgets_the_table net users_json n w w0 :
  truthy (load_user_ids users_json) = true ->
  clock w = clock w0 ->
  main net users_json n w = main net users_json n w0.
Proof.
  intros Hsome Hclock. unfold main, bind.
  rewrite !create_authenticated_session_run, Hsome, Hclock. simpl.
  by rewrite Hclock.
Qed.

(** ** Records the table agrees with *)

Lemma record_user_inv presence user_id :
  record_user presence = Some user_id ->
  exists d uid, presence = PDict d /\ dict_lookup "userId" d = Some uid /\
                py_str uid = user_id.
Proof.
  unfold record_user. destruct presence as [| | | | | |d]; try done. simpl.
  destruct (dict_lookup "userId" d) as [uid|] eqn:Huid; [|done].
  intros [= <-]. by exists d, uid.
Qed.

Lemma process_presence_settled net s presence w :
  settled (last_states w) presence ->
  process_presence net s presence w = (Ok tt, w, []).
Proof.
  intros (user_id & state & (d & uid & -> & Huid & <-)%record_user_inv & Hst & Hne).
  injection Hst as <-.
  unfold process_presence. simpl getitem. rewrite Huid, bind_lift_ok.
  simpl get. rewrite bind_lift_ok, bind_get_last_states. by rewrite Hne.
Qed.

(** X5.  A record whose state equals the table's entry for its user costs
    nothing: no call is made, nothing is sent, and the state of the program
    is what it was. *)
Theorem settled_record_is_skipped net s presence w :
  settled (last_states w) presence ->
  process_presence net s presence w = (Ok tt, w, []) /\
  notifications (process_presence net s presence w).2 = [] /\
  clock (process_presence net s presence w).1.2 = clock w.
Proof. intros H. by rewrite process_presence_settled. Qed.

Lemma settled_after_processing net s presence w w' t :
  process_presence net s presence w = (Ok tt, w', t) ->
  (forall state, record_state presence = Some state -> py_eq state state = true) ->
  settled (last_states w') presence.
Proof.
  intros Hrun Hrefl.
  destruct (getitem presence "userId") as [uid|e] eqn:Hget.
  2: { unfold process_presence in Hrun. by rewrite Hget, bind_lift_raise in Hrun. }
  destruct presence as [| | | | | |d]; try done. simpl in Hget.
  destruct (dict_lookup "userId" d) as [uid'|] eqn:Huid; [|done]. injection Hget as ->.
  pose proof (process_presence_table _ _ _ _ _ _ _ _ Huid Hrun) as Htable. simpl in Htable.
  exists (py_str uid), (default (PInt 0) (dict_lookup "userPresenceType" d)).
  split_and!; [unfold record_user; simpl; by rewrite Huid|done|].
  rewrite Htable. destruct (py_ne _ (default PNone (last_states w !! _))) eqn:Hne; [|done].
  rewrite lookup_insert_eq. unfold py_ne. simpl. by rewrite Hrefl.
Qed.

Lemma settled_other_key ls ls' presence :
  (forall user_id, record_user presence = Some user_id -> ls' !! user_id = ls !! user_id) ->
  settled ls presence -> settled ls' presence.
Proof.
  intros Hsame (user_id & state & Hu & Hst & Hne).
  exists user_id, state. by rewrite (Hsame _ Hu).
Qed.

Lemma settled_after_for_each net s records w w' t :
  for_each records (process_presence net s) w = (Ok tt, w', t) ->
  NoDup (record_user <$> records) ->
  (forall presence state, presence ∈ records ->
     record_state presence = Some state -> py_eq state state = true) ->
  forall presence, presence ∈ records -> settled (last_states w') presence.
Proof.
  revert w t. induction records as [|x l IH]; intros w t Hrun Hdup Hrefl presence Hin.
  { by apply elem_of_nil in Hin. }
  simpl in Hrun. apply bind_inv_ok in Hrun as ([] & w1 & t1 & t2 & Hx & Hl & _).
  rewrite fmap_cons in Hdup. apply NoDup_cons in Hdup as [Hfresh Hdup].
  apply elem_of_cons in Hin as [->|Hin].
  - eapply settled_other_key;
      [|eapply settled_after_processing; [exact Hx|intros; eapply Hrefl; [left|done]]].
    intros user_id Hu.
    eapply (for_each_other_key l (process_presence net s)); [|exact Hl].
    intros y Hy w0 r0 w0' t0. apply process_presence_other_key.
    intros Hu'. apply Hfresh. rewrite Hu, <- Hu'. by apply list_elem_of_fmap_2.
  - eapply IH; [exact Hl|done| |done]. intros p st Hp. apply Hrefl. by right.
Qed.

Lemma for_each_settled net s records w :
  (forall presence, presence ∈ records -> settled (last_states w) presence) ->
  for_each records (process_presence net s) w = (Ok tt, w, []).
Proof.
  induction records as [|x l IH]; intros Hall; [done|].
  simpl. unfold bind. rewrite process_presence_settled; [|apply Hall; left].
  rewrite IH; [done|]. intros p Hp. apply Hall. by right.
Qed.

(** X6.  Once a round has run to its end on an answer that names each user
    once, the same answer in a later round is silent: the round makes its
    one presence call, sleeps, and touches nothing.  (A state must equal
    itself for this, as every state but NaN does.) *)
Theorem repeated_answer_is_silent net s ids w presences w1 t1 records w2 t w3 :
  get_presence net s ids w = (Ok presences, w1, t1) ->
  iterate presences = Ok records ->
  cycle net s ids w = (Ok tt, w2, t) ->
  NoDup (record_user <$> records) ->
  (forall presence state, presence ∈ records ->
     record_state presence = Some state -> py_eq state state = true) ->
  last_states w3 = last_states w2 ->
  (get_presence net s ids w3).1.1 = Ok presences ->
  cycle net s ids w3
  = (Ok tt, tick w3,
     [EvRequest (presence_request s ids); EvSleep Config.CHECK_INTERVAL]).
Proof.
  intros Hfetch Hiter Hround Hdup Hrefl Htable Hagain.
  unfold cycle in Hround.
  apply bind_inv_ok in Hround as (presences' & w1' & t1' & t2 & Hfetch' & Hround & _).
  rewrite Hfetch in Hfetch'. injection Hfetch' as <- <- <-.
  rewrite Hiter, bind_lift_ok in Hround.
  apply bind_inv_ok in Hround as ([] & w2' & t3 & t4 & Hloop & Hsleep & _).
  injection Hsleep as <-.
  pose proof (settled_after_for_each _ _ _ _ _ _ Hloop Hdup Hrefl) as Hsettled.
  destruct (get_presence_run net s ids w3) as [r Hrun]. rewrite Hrun in Hagain.
  simpl in Hagain. subst r.
  unfold cycle, bind. rewrite Hrun. simpl. rewrite Hiter.
  rewrite for_each_settled; [done|].
  intros presence Hin. simpl. rewrite Htable. by apply Hsettled.
Qed.

(** X13.  After a round that ran to its end on an answer naming each user
    once, the table agrees with every record that came back: the record's
    state equals the entry of the record's user, an absent entry reading as
    None (which is how a null state is left). *)
Theorem completed_round_settles_records net s ids w presences w1 t1 records w2 t :
  get_presence net s ids w = (Ok presences, w1, t1) ->
  iterate presences = Ok records ->
  cycle net s ids w = (Ok tt, w2, t) ->
  NoDup (record_user <$> records) ->
  (forall presence state, presence ∈ records ->
     record_state presence = Some state -> py_eq state state = true) ->
  forall presence, presence ∈ records ->
    exists user_id state,
      record_user presence = Some user_id /\
      record_state presence = Some state /\
      py_eq state (default PNone (last_states w2 !! user_id)) = true.
Proof.
  intros Hfetch Hiter Hround Hdup Hrefl presence Hin.
  unfold cycle in Hround.
  apply bind_inv_ok in Hround as (presences' & w1' & t1' & t2 & Hfetch' & Hround & _).
  rewrite Hfetch in Hfetch'. injection Hfetch' as <- <- <-.
  rewrite Hiter, bind_lift_ok in Hround.
  apply bind_inv_ok in Hround as ([] & w2' & t3 & t4 & Hloop & Hsleep & _).
  injection Hsleep as <-.
  destruct (settled_after_for_each _ _ _ _ _ _ Hloop Hdup Hrefl presence Hin)
    as (user_id & state & Hu & Hst & Hne).
  exists user_id, state. split_and!; [done..|].
  unfold py_ne in Hne. by apply negb_false_iff in Hne.
Qed.

(** ** A record of a user in a game *)

Lemma bind_ret {A B : Type} (a : A) (f : A -> M B) w :
  bind (ret a) f w = f a w.
Proof. apply bind_lift_ok. Qed.

Lemma float_eq_int_functional f a b :
  float_eq_int f a = true -> float_eq_int f b = true -> a = b.
Proof.
  destruct f as [?|?| |sgn m e]; simpl; try done.
  - intros Ha%Z.eqb_eq Hb%Z.eqb_eq. by subst.
  - destruct (0 <=? e) eqn:He.
    + intros Ha%Z.eqb_eq Hb%Z.eqb_eq. by subst.
    + intros Ha%Z.eqb_eq Hb%Z.eqb_eq. apply Z.leb_gt in He.
      assert (0 < 2 ^ (- e)) by (apply Z.pow_pos_nonneg; lia).
      rewrite Ha in Hb. apply Z.mul_reg_r in Hb; [done|lia].
Qed.

Lemma py_eq_int_functional v a b :
  py_eq v (PInt a) = true -> py_eq v (PInt b) = true -> a = b.
Proof.
  destruct v as [|c|n|f| | |]; simpl; try done.
  - intros Ha%Z.eqb_eq Hb%Z.eqb_eq. by subst.
  - intros Ha%Z.eqb_eq Hb%Z.eqb_eq. by subst.
  - apply float_eq_int_functional.
Qed.

(** X7.  A changed record in state 2 whose profile fetch returns: the game
    name is fetched under the record's universe id when that id is truthy,
    and is "Unknown Game" without any fetch when it is missing, null or 0;
    then the in-game embed goes out and the state is filed.  The calls are
    the profile fetch, the game fetch if any, and the webhook, in this
    order. *)
Theorem in_game_record_run net s d uid w username display_name w1 t1 game_name :
  dict_lookup "userId" d = Some uid ->
  let user_id := py_str uid in
  let state := default (PInt 0) (dict_lookup "userPresenceType" d) in
  let universe_id := default PNone (dict_lookup "universeId" d) in
  py_ne state (default PNone (last_states w !! user_id)) = true ->
  py_eq state (PInt 2) = true ->
  get_user_info net s user_id w = (Ok (username, display_name), w1, t1) ->
  (if truthy universe_id
   then (get_game_info net s universe_id (tick w)).1.1 = Ok game_name
   else game_name = PStr "Unknown Game") ->
  exists embed,
    build_embed_in_game (PDict d) game_name username display_name = Ok embed /\
    process_presence net s (PDict d) w
    = (Ok tt,
       {| last_states := <[user_id := state]> (last_states w);
          clock := (clock w + if truthy universe_id then 3 else 2)%nat |},
       EvRequest (user_info_request s user_id)
       :: (if truthy universe_id
           then [EvRequest (game_info_request s universe_id)] else [])
       ++ [EvRequest (webhook_request embed)]).
Proof.
  intros Huid user_id state universe_id Hne Hgame Hu Hname.
  destruct (get_user_info_run net s user_id w) as [ru Hu'].
  rewrite Hu' in Hu. injection Hu as -> <- <-.
  destruct (build_embed_in_game_total d uid game_name username display_name Huid)
    as [embed Hembed].
  exists embed. split; [done|].
  assert (py_eq state (PInt 0) = false) as H0.
  { destruct (py_eq state (PInt 0)) eqn:H; [|done].
    by pose proof (py_eq_int_functional _ _ _ H Hgame). }
  assert (py_eq state (PInt 1) = false) as H1.
  { destruct (py_eq state (PInt 1)) eqn:H; [|done].
    by pose proof (py_eq_int_functional _ _ _ H Hgame). }
  unfold process_presence. simpl getitem. rewrite Huid, bind_lift_ok.
  simpl get. rewrite bind_lift_ok, bind_get_last_states.
  fold user_id state universe_id. rewrite Hne.
  unfold bind at 1. rewrite Hu'. rewrite H0, H1, Hgame.
  unfold bind at 1. rewrite bind_lift_ok.
  destruct (truthy universe_id).
  - destruct (get_game_info_run net s universe_id (tick w)) as [rg Hg].
    rewrite Hg in Hname. simpl in Hname. subst rg.
    unfold bind at 1. rewrite Hg. simpl fst. simpl snd. rewrite Hembed, bind_lift_ok.
    rewrite send_webhook_run. simpl. repeat f_equal. lia.
  - subst game_name. rewrite bind_ret. simpl fst. simpl snd.
    rewrite Hembed, bind_lift_ok, send_webhook_run. simpl. repeat f_equal. lia.
Qed.

(** ** What the fetchers make of a good answer *)

Local Ltac good_answer H :=
  let r := fresh "r" in
  let Hnet := fresh "Hnet" in
  let Hstatus := fresh "Hstatus" in
  let Hbody := fresh "Hbody" in
  destruct H as (r & Hnet & Hstatus & Hbody);
  rewrite Hnet in Hstatus; simpl in Hstatus;
  unfold get_presence, get_game_info, get_user_info, try_except, bind, session_get,
    session_post, send, raise_for_status, json;
  fold (presence_request); rewrite ?Hnet; simpl; rewrite ?Hstatus; simpl;
  rewrite ?Hbody; simpl.

(** X8.  An answer with a good status and a JSON object for a body is read
    as follows: the presence fetch returns what is under "userPresences",
    the empty list if nothing is; the profile fetch returns the pair of
    "name" and "displayName", None for a missing one; the game fetch
    returns the "name" of the first entry of "data", whatever follows it,
    and "Unknown Game" if that entry has no name. *)
Theorem fetchers_read_good_answers net s w :
  (forall ids d,
     good_answer (net (clock w) (presence_request s ids)) (Some (PDict d)) ->
     (get_presence net s ids w).1.1
     = Ok (default (PList []) (dict_lookup "userPresences" d))) /\
  (forall u d,
     good_answer (net (clock w) (user_info_request s u)) (Some (PDict d)) ->
     (get_user_info net s u w).1.1
     = Ok (default PNone (dict_lookup "name" d),
           default PNone (dict_lookup "displayName" d))) /\
  (forall uni d entry rest,
     good_answer (net (clock w) (game_info_request s uni)) (Some (PDict d)) ->
     dict_lookup "data" d = Some (PList (PDict entry :: rest)) ->
     (get_game_info net s uni w).1.1
     = Ok (default (PStr "Unknown Game") (dict_lookup "name" entry))).
Proof.
  split_and!.
  - intros ids d H. unfold presence_request in H. good_answer H. done.
  - intros u d H. unfold user_info_request in H. good_answer H. done.
  - intros uni d entry rest H Hdata. unfold game_info_request in H. good_answer H.
    by rewrite Hdata.
Qed.

(** X9.  An answer with a good status and a body that is not JSON: with a
    [requests] whose JSON error is a [RequestException] each fetcher
    returns its fallback; with an older one the error leaves the fetcher. *)
Theorem fetchers_on_a_body_that_is_not_json net s w :
  (forall ids,
     good_answer (net (clock w) (presence_request s ids)) None ->
     (get_presence net s ids w).1.1
     = if json_error_is_request_exception then Ok (PList []) else Raise JSONDecodeError) /\
  (forall u,
     good_answer (net (clock w) (user_info_request s u)) None ->
     (get_user_info net s u w).1.1
     = if json_error_is_request_exception then Ok (PNone, PNone)
       else Raise JSONDecodeError) /\
  (forall uni,
     good_answer (net (clock w) (game_info_request s uni)) None ->
     (get_game_info net s uni w).1.1
     = if json_error_is_request_exception then Ok (PStr "Unknown Game")
       else Raise JSONDecodeError).
Proof.
  split_and!.
  - intros ids H. unfold presence_request in H. good_answer H.
    by destruct json_error_is_request_exception.
  - intros u H. unfold user_info_request in H. good_answer H.
    by destruct json_error_is_request_exception.
  - intros uni H. unfold game_info_request in H. good_answer H.
    by destruct json_error_is_request_exception.
Qed.

(** ** What a round costs *)

Lemma spends_weaken {A : Type} (a b a' b' : nat) (m : M A) :
  spends a b m -> (a <= a')%nat -> (b <= b')%nat -> spends a' b' m.
Proof. intros Hm Ha Hb w r w' t Hrun. destruct (Hm _ _ _ _ Hrun). lia. Qed.

Lemma spends_free {A : Type} (m : M A) :
  (forall w, exists r, m w = (r, w, [])) -> spends 0 0 m.
Proof.
  intros Hm w r w' t Hrun. destruct (Hm w) as [r' Hr]. rewrite Hr in Hrun.
  injection Hrun as _ <- <-. simpl. lia.
Qed.

Lemma spends_bind {A B : Type} (a b c d : nat) (m : M A) (f : A -> M B) :
  spends a b m -> (forall x, spends c d (f x)) -> spends (a + c) (b + d) (bind m f).
Proof.
  intros Hm Hf w r w' t [(e & H & _)|(x & w1 & t1 & t2 & H1 & H2 & ->)]%bind_inv.
  - destruct (Hm _ _ _ _ H). lia.
  - destruct (Hm _ _ _ _ H1), (Hf _ _ _ _ _ H2).
    rewrite notifications_app, length_app. lia.
Qed.

Lemma spends_if {A : Type} (a b : nat) (c : bool) (m m' : M A) :
  spends a b m -> spends a b m' -> spends a b (if c then m else m').
Proof. by destruct c. Qed.

Lemma spends_lift {A : Type} (r : result A) : spends 0 0 (lift r).
Proof. apply spends_free. intros w. by eexists. Qed.

Lemma spends_ret {A : Type} (a : A) : spends 0 0 (ret a).
Proof. apply spends_free. intros w. by eexists. Qed.

Lemma spends_send_webhook net embed : spends 1 1 (send_webhook net embed).
Proof.
  intros w r w' t. rewrite send_webhook_run. intros [= _ <- <-]. simpl. lia.
Qed.

Lemma spends_get_user_info net s u : spends 1 0 (get_user_info net s u).
Proof.
  intros w r w' t. destruct (get_user_info_run net s u w) as [r' ->].
  intros [= _ <- <-]. simpl. lia.
Qed.

Lemma spends_get_game_info net s uni : spends 1 0 (get_game_info net s uni).
Proof.
  intros w r w' t. destruct (get_game_info_run net s uni w) as [r' ->].
  intros [= _ <- <-]. simpl. lia.
Qed.

Lemma spends_set_last_state k v : spends 0 0 (set_last_state k v).
Proof. intros w r w' t [= _ <- <-]. simpl. lia. Qed.

Local Ltac within a b lem := apply (spends_weaken a b); [apply lem|lia|lia].

Lemma spends_process_presence net s presence :
  spends 3 1 (process_presence net s presence).
Proof.
  unfold process_presence.
  apply (spends_bind 0 0 3 1); [apply spends_lift|intros uid].
  apply (spends_bind 0 0 3 1); [apply spends_lift|intros state].
  apply (spends_bind 0 0 3 1); [apply spends_free; intros w; by eexists|intros ls].
  apply spends_if; [|within 0%nat 0%nat (spends_ret ())].
  apply (spends_bind 1 0 2 1); [apply spends_get_user_info|intros names].
  apply (spends_bind 2 1 0 0); [|intros _; apply spends_set_last_state].
  apply spends_if; [within 1%nat 1%nat spends_send_webhook|].
  apply spends_if; [within 1%nat 1%nat spends_send_webhook|].
  apply spends_if; [|within 0%nat 0%nat (spends_ret ())].
  apply (spends_bind 0 0 2 1); [apply spends_lift|intros universe_id].
  apply (spends_bind 1 0 1 1).
  - apply spends_if; [apply spends_get_game_info|].
    within 0%nat 0%nat (spends_ret (PStr "Unknown Game")).
  - intros game_name.
    apply (spends_bind 0 0 1 1); [apply spends_lift|intros embed].
    apply spends_send_webhook.
Qed.

Lemma spends_for_each {A : Type} (a b : nat) (l : list A) (body : A -> M unit) :
  (forall x, spends a b (body x)) ->
  spends (a * length l) (b * length l) (for_each l body).
Proof.
  intros Hbody. induction l as [|x l IH]; simpl.
  - rewrite !Nat.mul_0_r. apply spends_ret.
  - eapply spends_weaken; [by apply (spends_bind a b)|lia|lia].
Qed.

(** X10.  A round makes at most one call for the presence fetch and three
    for each record that came back, and sends at most one notification for
    each record, however it ends. *)
Theorem round_budget net s ids w presences records :
  (get_presence net s ids w).1.1 = Ok presences ->
  iterate presences = Ok records ->
  let run := cycle net s ids w in
  (clock run.1.2 <= clock w + 1 + 3 * length records)%nat /\
  (length (notifications run.2) <= length records)%nat.
Proof.
  intros Hfetch Hiter run. subst run.
  destruct (get_presence_run net s ids w) as [r Hrun]. rewrite Hrun in Hfetch.
  simpl in Hfetch. subst r.
  unfold cycle, bind. rewrite Hrun. simpl. rewrite Hiter.
  destruct (for_each records (process_presence net s) (tick w)) as [[r w2] t2] eqn:Hloop.
  destruct (spends_for_each 3 1 records _ (spends_process_presence net s) _ _ _ _ Hloop)
    as [Hcalls Hnotes].
  simpl in Hcalls. destruct r as [[]|e]; simpl.
  - rewrite notifications_app, length_app. simpl. lia.
  - rewrite ?app_nil_r. lia.
Qed.

(** ** The table only grows *)

Lemma keeps_keys_frames {A : Type} (m : M A) : frames m -> keeps_keys m.
Proof. intros Hm w r w' t Hrun. by rewrite (Hm _ _ _ _ Hrun). Qed.

Lemma keeps_keys_bind {A B : Type} (m : M A) (f : A -> M B) :
  keeps_keys m -> (forall a, keeps_keys (f a)) -> keeps_keys (bind m f).
Proof.
  intros Hm Hf w r w' t [(e & H & _)|(a & w1 & t1 & t2 & H1 & H2 & _)]%bind_inv.
  - by eapply Hm.
  - etrans; [by eapply Hm|by eapply Hf].
Qed.

Lemma keeps_keys_if {A : Type} (c : bool) (m m' : M A) :
  keeps_keys m -> keeps_keys m' -> keeps_keys (if c then m else m').
Proof. by destruct c. Qed.

Lemma keeps_keys_set_last_state k v : keeps_keys (set_last_state k v).
Proof. intros w r w' t [= _ <- _]. simpl. rewrite dom_insert_L. set_solver. Qed.

Lemma keeps_keys_get_last_states : keeps_keys get_last_states.
Proof. by intros w r w' t [= _ <- _]. Qed.

Lemma keeps_keys_for_each {A : Type} (l : list A) (body : A -> M unit) :
  (forall x, keeps_keys (body x)) -> keeps_keys (for_each l body).
Proof.
  intros Hbody. induction l as [|x l IH]; simpl.
  - apply keeps_keys_frames, frames_ret.
  - by apply keeps_keys_bind.
Qed.

Create HintDb keeps.
#[local] Hint Resolve keeps_keys_bind keeps_keys_if keeps_keys_set_last_state
  keeps_keys_get_last_states keeps_keys_for_each : keeps.
#[local] Hint Extern 5 (keeps_keys _) =>
  (apply keeps_keys_frames; solve [auto 10 with frames]) : keeps.

Lemma keeps_keys_process_presence net s presence :
  keeps_keys (process_presence net s presence).
Proof. unfold process_presence. auto 20 with keeps. Qed.

Lemma keeps_keys_cycle net s ids : keeps_keys (cycle net s ids).
Proof.
  unfold cycle. pose proof (keeps_keys_process_presence net s). auto 20 with keeps.
Qed.

Lemma keeps_keys_loop net n s ids : keeps_keys (loop net n s ids).
Proof.
  induction n as [|n IH]; simpl.
  - apply keeps_keys_frames, frames_ret.
  - apply keeps_keys_bind; [apply keeps_keys_cycle|done].
Qed.

(** X11.  The loop never drops a user from the table: whoever has an entry
    keeps one through any number of rounds, however the rounds end. *)
Theorem table_never_shrinks net n s ids w user_id :
  is_Some (last_states w !! user_id) ->
  is_Some (last_states (loop net n s ids w).1.2 !! user_id).
Proof.
  rewrite <- !elem_of_dom.
  destruct (loop net n s ids w) as [[r w'] t] eqn:Hrun.
  apply (keeps_keys_loop _ _ _ _ _ _ _ _ Hrun).
Qed.

(** ** What is sent to the sink *)

Lemma build_embed_in_game_ok presence game_name username display_name embed :
  build_embed_in_game presence game_name username display_name = Ok embed ->
  embed_ok embed = true.
Proof.
  unfold build_embed_in_game.
  destruct (getitem presence "userId"); [|done]. simpl.
  destruct (get presence "placeId" PNone); [|done]. simpl.
  destruct (get presence "gameId" PNone); [|done]. simpl.
  destruct (_ && _); by intros [= <-].
Qed.

Lemma ok_send_webhook net embed :
  embed_ok embed = true -> emits sends_ok_embeds (send_webhook net embed).
Proof. intros Hok w. rewrite send_webhook_run. by repeat constructor. Qed.

Lemma ok_session_call net rq :
  (exists s, req_client rq = ViaSession s) -> emits sends_ok_embeds (send net rq).
Proof.
  intros [s Hs]. apply emits_send. unfold sends_ok_embeds, webhook_embed. by rewrite Hs.
Qed.

Lemma ok_fetchers net s :
  (forall ids, emits sends_ok_embeds (get_presence net s ids)) /\
  (forall uni, emits sends_ok_embeds (get_game_info net s uni)) /\
  (forall u, emits sends_ok_embeds (get_user_info net s u)).
Proof.
  split_and!; intros x w.
  - destruct (get_presence_run net s x w) as [r ->]. by repeat constructor.
  - destruct (get_game_info_run net s x w) as [r ->]. by repeat constructor.
  - destruct (get_user_info_run net s x w) as [r ->]. by repeat constructor.
Qed.

Lemma ok_process_presence net s presence :
  emits sends_ok_embeds (process_presence net s presence).
Proof.
  destruct (ok_fetchers net s) as (_ & Hgame & Huser).
  unfold process_presence.
  do 3 (apply emits_bind; [auto with emits|intros ?]).
  apply emits_if; [|auto with emits].
  apply emits_bind; [apply Huser|intros names].
  apply emits_bind; [|auto with emits].
  do 2 (apply emits_if; [by apply ok_send_webhook|]).
  apply emits_if; [|auto with emits].
  apply emits_bind; [auto with emits|intros universe_id].
  apply emits_bind; [apply emits_if; [apply Hgame|auto with emits]|intros game_name].
  apply (emits_bind_post _ (fun embed => embed_ok embed = true)).
  - intros w embed w1 t1 [= H _ _]. by apply build_embed_in_game_ok in H.
  - auto with emits.
  - intros embed Hok. by apply ok_send_webhook.
Qed.

(** X12.  Whatever the network answers and however long the program runs,
    every notification it sends is an embed with a string for a title and
    one of the four colours red, yellow, green and cyan. *)
Theorem every_notification_is_well_formed net users_json n w :
  Forall (fun embed => embed_ok embed = true)
         (notifications (main net users_json n w).2).
Proof.
  assert (emits sends_ok_embeds (main net users_json n)) as Hmain.
  { unfold main. apply emits_bind.
    - intros w0. rewrite create_authenticated_session_run. by repeat constructor.
    - intros session. apply emits_if; [auto with emits|].
      apply emits_bind; [intros w0; constructor|intros _].
      induction n as [|n IH]; simpl; [auto with emits|].
      apply emits_bind; [|done]. unfold cycle.
      destruct (ok_fetchers net session) as (Hpresence & _ & _).
      apply emits_bind; [apply Hpresence|intros presences].
      apply emits_bind; [auto with emits|intros records].
      apply emits_bind; [|intros; by apply emits_sleep].
      apply emits_for_each, ok_process_presence. }
  specialize (Hmain w). revert Hmain. generalize (main net users_json n w).2.
  intros t Ht. unfold notifications. induction Ht as [|e t He Ht IH]; [constructor|].
  simpl. unfold sends_ok_embeds in He.
  destruct (webhook_embed e); [by constructor|done].
Qed.

End Properties.

(** * Runs

    The theorems above at sample inputs, and the inputs on which the code
    leaves what was claimed of it. *)

(** The first time user 5 is seen, online: one notification, and the table
    holds state 1 for "5". *)
Example first_round_announces_online :
  let run := cycle (P := sample_platform) live_network new_Session
               (PList [PStr "5"]) fresh_world in
  run.1.1 = Ok tt /\
  notifications run.2
  = [PDict [("title", PStr "Builder is Online (not in-game)"); ("color", PInt 0xFFFF00)]] /\
  last_states run.1.2 = {["5" := PInt 1]}.
Proof. by vm_compute. Qed.

(** User 5, last seen online, now in a game: the name of universe 99 is
    fetched and the notification links to place 10, server 20. *)
Example next_round_announces_game :
  let run := cycle (P := sample_platform) playing_network new_Session
               (PList [PStr "5"])
               {| last_states := {["5" := PInt 1]}; clock := 4 |} in
  run.1.1 = Ok tt /\
  run.2 !! 2%nat
  = Some (EvRequest (game_info_request (P := sample_platform) new_Session (PInt 99))) /\
  req_url (game_info_request (P := sample_platform) new_Session (PInt 99))
  = "https://games.roproxy.com/v1/games?universeIds=99" /\
  (exists embed, notifications run.2 = [PDict embed] /\
     dict_lookup "title" embed = Some (PStr "Builder is now in-game") /\
     dict_lookup "description" embed = Some (PStr "**Obby**") /\
     dict_lookup "url" embed
     = Some (PStr "https://www.roblox.com/games/start?placeId=10&gameId=20")) /\
  last_states run.1.2 = {["5" := PInt 2]}.
Proof. vm_compute. split_and!; try done. by eexists. Qed.

(** C1, on a run: user 5, seen online for the first time. *)
Lemma notification_iff_changed_to_known_state_witness :
  let run := process_presence (P := sample_platform) live_network new_Session
               online_record fresh_world in
  exists embed, notifications run.2 = [embed].
Proof.
  intros run.
  apply (notification_iff_changed_to_known_state (P := sample_platform)
           live_network new_Session
           [("userId", PInt 5); ("userPresenceType", PInt 1)] (PInt 5)
           fresh_world run.1.2 run.2);
    by vm_compute.
Defined.

(** C1 as stated fails: a first observation in state 3 differs from the
    absent entry and is recorded, yet nobody is notified. *)
Lemma first_observation_of_state_3_is_silent :
  let run := process_presence (P := sample_platform) dead_network new_Session
               studio_record fresh_world in
  let last_state := default PNone (last_states fresh_world !! "5") in
  run.1.1 = Ok tt /\
  last_states fresh_world !! "5" = None /\
  last_states run.1.2 !! "5" = Some (PInt 3) /\
  ~ (notifications run.2 <> [] <-> py_ne (PInt 3) last_state = true).
Proof.
  vm_compute. split_and!; [done..|]. intros [_ H]. by apply H.
Qed.

(** On a run: user 5 seen online for the first time while no call gets
    through; the table still takes the new state. *)
Lemma changed_state_is_recorded_witness :
  exists w' t,
    process_presence (P := sample_platform) dead_network new_Session
      online_record fresh_world = (Ok tt, w', t) /\
    last_states w' !! "5" = Some (PInt 1).
Proof.
  apply (changed_state_is_recorded (P := sample_platform) dead_network new_Session
           [("userId", PInt 5); ("userPresenceType", PInt 1)] (PInt 5) fresh_world);
    by vm_compute.
Defined.

(** C2: the write of the new state is not unconditional.  When the profile
    endpoint, or for a user in a game the game endpoint, answers 200 with a
    JSON list, the fetch raises [AttributeError], the body of the loop is
    left before [last_states] is written, and the changed state of user 5
    is neither filed nor announced. *)
Theorem malformed_fetch_answer_skips_the_table_write :
  let profile_run := process_presence (P := sample_platform) listing_network
                       new_Session online_record fresh_world in
  let game_run := process_presence (P := sample_platform) game_listing_network
                    new_Session in_game_record fresh_world in
  py_ne (PInt 1) (default PNone (last_states fresh_world !! "5")) = true /\
  profile_run.1.1 = Raise AttributeError /\
  last_states profile_run.1.2 !! "5" = None /\
  notifications profile_run.2 = [] /\
  py_ne (PInt 2) (default PNone (last_states fresh_world !! "5")) = true /\
  game_run.1.1 = Raise AttributeError /\
  last_states game_run.1.2 !! "5" = None /\
  notifications game_run.2 = [].
Proof. by vm_compute. Qed.

(** C3, on a run: place 10, server 20. *)
Lemma join_link_iff_both_ids_truthy_witness :
  exists embed,
    build_embed_in_game (P := sample_platform) in_game_record
      (PStr "Obby") (PStr "builderman") (PStr "Builder") = Ok (PDict embed) /\
    dict_lookup "url" embed
    = Some (PStr "https://www.roblox.com/games/start?placeId=10&gameId=20").
Proof.
  destruct (join_link_iff_both_ids_truthy (P := sample_platform)
              [("userId", PInt 5); ("userPresenceType", PInt 2);
               ("placeId", PInt 10); ("gameId", PInt 20); ("universeId", PInt 99)]
              (PInt 5) (PStr "Obby") (PStr "builderman") (PStr "Builder") eq_refl)
    as (embed & Hrun & Hlink & _).
  exists embed. split; [exact Hrun|]. by destruct (Hlink eq_refl eq_refl).
Defined.

(** C3 as stated fails: a record that has both a place id and a game id,
    the place id being 0, gets the embed without a join link. *)
Lemma place_id_zero_gets_no_join_link :
  getitem place_zero_record "placeId" = Ok (PInt 0) /\
  getitem place_zero_record "gameId" = Ok (PStr "f3a1") /\
  exists embed,
    build_embed_in_game (P := sample_platform) place_zero_record
      (PStr "Obby") (PStr "builderman") (PStr "Builder") = Ok (PDict embed) /\
    dict_lookup "url" embed = None /\
    dict_lookup "fields" embed = None /\
    dict_lookup "title" embed = Some (PStr "Builder is in a game").
Proof. split_and!; [done..|]. eexists. by vm_compute. Qed.

(** C4: the program stops with an exception on answers of an unexpected
    shape.  A record without [userId] raises [KeyError] in the loop, a
    [userPresences] that is a number raises [TypeError] there, and a profile
    body that is a list raises [AttributeError] out of [get_user_info]. *)
Theorem malformed_response_stops_the_program :
  (main (P := sample_platform) nameless_network (Some (PList [PStr "5"])) 3
     fresh_world).1.1 = Raise KeyError /\
  (main (P := sample_platform) shapeless_network (Some (PList [PStr "5"])) 3
     fresh_world).1.1 = Raise TypeError /\
  (get_user_info (P := sample_platform) listing_network new_Session "5"
     fresh_world).1.1 = Raise AttributeError /\
  (main (P := sample_platform) listing_network (Some (PList [PStr "5"])) 3
     fresh_world).1.1 = Raise AttributeError.
Proof. by vm_compute. Qed.

(** C5 as stated fails: in a run of the program the fourth call is the POST
    to the webhook, made through [requests.post], and the retry policy of
    the session is not the one it runs under. *)
Lemma webhook_post_is_outside_retry_policy :
  exists rq,
    (main (P := sample_platform) live_network (Some (PList [PStr "5"])) 1
       fresh_world).2 !! 3%nat = Some (EvRequest rq) /\
    req_method rq = POST /\
    req_url rq = Config.DISCORD_WEBHOOK /\
    req_client rq = ViaRequests /\
    retry_policy rq <> Some retry_strategy.
Proof. eexists. vm_compute. by split_and!. Qed.

(** C6: with the profile fetch failed, the in-game embeds are titled "None",
    not with the user id, while the offline and online ones use the id. *)
Theorem in_game_title_lacks_user_id_fallback :
  notifications (process_presence (P := sample_platform) dead_network new_Session
                   private_record fresh_world).2
  = [PDict [("title", PStr "None is in a game");
            ("color", PInt 0x00FFFF);
            ("description", PStr "Joins are off, check badges for hint of game.")]] /\
  (exists rest,
     notifications (process_presence (P := sample_platform) dead_network new_Session
                      in_game_record fresh_world).2
     = [PDict (("title", PStr "None is now in-game") :: rest)]) /\
  notifications (process_presence (P := sample_platform) dead_network new_Session
                   online_record fresh_world).2
  = [PDict [("title", PStr "5 is Online (not in-game)"); ("color", PInt 0xFFFF00)]].
Proof. vm_compute. split_and!; [done|by eexists|done]. Qed.

(** C7, on a run: the three fetchers against a network that is down, and
    the game name against one that lists no game. *)
Lemma fetchers_fall_back_on_failure_witness :
  (get_presence (P := sample_platform) dead_network new_Session
     (PList [PStr "5"]) fresh_world).1.1 = Ok (PList []) /\
  (get_game_info (P := sample_platform) dead_network new_Session
     (PInt 99) fresh_world).1.1 = Ok (PStr "Unknown Game") /\
  (get_user_info (P := sample_platform) dead_network new_Session
     "5" fresh_world).1.1 = Ok (PNone, PNone) /\
  (get_game_info (P := sample_platform) gameless_network new_Session
     (PInt 99) fresh_world).1.1 = Ok (PStr "Unknown Game").
Proof.
  destruct (fetchers_fall_back_on_failure (P := sample_platform)
              dead_network new_Session fresh_world) as (Hp & Hg & Hu & _).
  destruct (fetchers_fall_back_on_failure (P := sample_platform)
              gameless_network new_Session fresh_world) as (_ & _ & _ & He).
  split_and!; [apply Hp | apply Hg | apply Hu | eapply He]; try reflexivity.
  by right.
Defined.

(** C8, on a run: a round while the network is down. *)
Lemma empty_presence_result_changes_nothing_witness :
  let run := cycle (P := sample_platform) dead_network new_Session
               (PList [PStr "5"]) fresh_world in
  run.1.1 = Ok tt /\ last_states run.1.2 = last_states fresh_world /\
  notifications run.2 = [].
Proof.
  apply (empty_presence_result_changes_nothing (P := sample_platform)
           dead_network new_Session (PList [PStr "5"]) fresh_world).
  right. reflexivity.
Defined.

(** C9, on a run: a record of user 5 that carries no presence type. *)
Lemma missing_presence_type_reads_as_offline_witness :
  exists w' t,
    process_presence (P := sample_platform) live_network new_Session
      (PDict [("userId", PInt 5)]) fresh_world = (Ok tt, w', t) /\
    notifications t
    = [PDict [("title", PStr "Builder is Offline"); ("color", PInt 0xFF0000)]] /\
    last_states w' = <["5" := PInt 0]> (last_states fresh_world).
Proof.
  apply (missing_presence_type_reads_as_offline (P := sample_platform)
           live_network new_Session [("userId", PInt 5)] (PInt 5) fresh_world
           (PStr "builderman") (PStr "Builder")
           (tick fresh_world)
           [EvRequest (user_info_request new_Session "5")]);
    reflexivity.
Defined.

(** C10, on a run: users 5 and 6 are tracked, only 5 has a record. *)
Lemma user_without_record_is_left_alone_witness :
  let run := cycle (P := sample_platform) live_network new_Session
               (PList [PStr "5"; PStr "6"]) seen_world in
  let its := iterations [online_record]
               (process_presence (P := sample_platform) live_network new_Session)
               (tick seen_world) in
  last_states run.1.2 !! "6" = Some (PInt 1) /\
  notifications run.2 = flat_map (fun it => notifications (snd it)) its /\
  notifications_for (P := sample_platform) "6" its = [].
Proof.
  apply (user_without_record_is_left_alone (P := sample_platform)
           live_network new_Session (PList [PStr "5"; PStr "6"]) seen_world
           (PList [online_record]) (tick seen_world)
           [EvRequest (presence_request new_Session (PList [PStr "5"; PStr "6"]))]
           [online_record] "6").
  - reflexivity.
  - reflexivity.
  - intros presence ->%list_elem_of_singleton. by vm_compute.
Defined.

(** X2, on a run: the seed request is refused with a token. *)
Lemma session_carries_token_when_given_witness :
  exists session w' t,
    create_authenticated_session (P := sample_platform) token_network fresh_world
    = (Ok session, w', t) /\
    headers session = [("User-Agent", "Mozilla/5.0"); ("X-CSRF-TOKEN", "t0k3n")].
Proof.
  eexists _, _, _. split; [apply create_authenticated_session_run|].
  destruct (session_carries_token_when_given (P := sample_platform)
              token_network fresh_world _ _ _
              (create_authenticated_session_run token_network fresh_world))
    as [_ Hheaders].
  exact Hheaders.
Defined.

(** X3, on a run: the file of users could not be read. *)
Lemma no_users_no_polling_witness :
  main (P := sample_platform) live_network None 5 fresh_world
  = (Ok tt, tick fresh_world, [EvRequest seed_request]).
Proof.
  apply (no_users_no_polling (P := sample_platform) live_network None 5 fresh_world).
  reflexivity.
Defined.

(** X4, on a run: two rounds, started with an empty table and with one that
    knows user 6. *)
Lemma startup_forgets_the_table_witness :
  main (P := sample_platform) live_network (Some (PList [PStr "5"])) 2 fresh_world
  = main (P := sample_platform) live_network (Some (PList [PStr "5"])) 2 seen_world.
Proof.
  apply (startup_forgets_the_table (P := sample_platform) live_network
           (Some (PList [PStr "5"])) 2 fresh_world seen_world); reflexivity.
Defined.

(** X5, on a run: user 5 is online and the table says so. *)
Lemma settled_record_is_skipped_witness :
  process_presence (P := sample_platform) live_network new_Session online_record
    settled_world = (Ok tt, settled_world, []).
Proof.
  apply (settled_record_is_skipped (P := sample_platform) live_network new_Session
           online_record settled_world).
  exists "5", (PInt 1). by vm_compute.
Defined.

(** X6, on a run: user 5 is online in two rounds in a row. *)
Lemma repeated_answer_is_silent_witness :
  let first := cycle (P := sample_platform) live_network new_Session
                 (PList [PStr "5"]) fresh_world in
  cycle (P := sample_platform) live_network new_Session (PList [PStr "5"]) first.1.2
  = (Ok tt, tick first.1.2,
     [EvRequest (presence_request new_Session (PList [PStr "5"]));
      EvSleep Config.CHECK_INTERVAL]).
Proof.
  intros first.
  apply (repeated_answer_is_silent (P := sample_platform) live_network new_Session
           (PList [PStr "5"]) fresh_world (PList [online_record]) (tick fresh_world)
           [EvRequest (presence_request new_Session (PList [PStr "5"]))]
           [online_record] first.1.2 first.2 first.1.2).
  - reflexivity.
  - reflexivity.
  - by vm_compute.
  - vm_compute. apply NoDup_singleton.
  - intros presence state ->%list_elem_of_singleton [= <-]. reflexivity.
  - reflexivity.
  - reflexivity.
Defined.

(** X13, on a run: after the first round the table holds 1 for user 5. *)
Lemma completed_round_settles_records_witness :
  let first := cycle (P := sample_platform) live_network new_Session
                 (PList [PStr "5"]) fresh_world in
  exists user_id state,
    record_user (P := sample_platform) online_record = Some user_id /\
    record_state online_record = Some state /\
    py_eq state (default PNone (last_states first.1.2 !! user_id)) = true.
Proof.
  intros first.
  apply (completed_round_settles_records (P := sample_platform) live_network new_Session
           (PList [PStr "5"]) fresh_world (PList [online_record]) (tick fresh_world)
           [EvRequest (presence_request new_Session (PList [PStr "5"]))]
           [online_record] first.1.2 first.2).
  - reflexivity.
  - reflexivity.
  - by vm_compute.
  - vm_compute. apply NoDup_singleton.
  - intros presence state ->%list_elem_of_singleton [= <-]. reflexivity.
  - apply list_elem_of_singleton. reflexivity.
Defined.

(** X7, on a run: user 5 in a game, the record naming no universe. *)
Lemma in_game_record_run_witness :
  exists embed,
    build_embed_in_game (P := sample_platform) universeless_record
      (PStr "Unknown Game") (PStr "builderman") (PStr "Builder") = Ok embed /\
    process_presence (P := sample_platform) live_network new_Session
      universeless_record fresh_world
    = (Ok tt, {| last_states := {["5" := PInt 2]}; clock := 2 |},
       [EvRequest (user_info_request new_Session "5");
        EvRequest (webhook_request embed)]).
Proof.
  apply (in_game_record_run (P := sample_platform) live_network new_Session
           [("userId", PInt 5); ("userPresenceType", PInt 2);
            ("placeId", PInt 10); ("gameId", PInt 20)]
           (PInt 5) fresh_world (PStr "builderman") (PStr "Builder")
           (tick fresh_world) [EvRequest (user_info_request new_Session "5")]
           (PStr "Unknown Game")); reflexivity.
Defined.

(** X8, on a run: the three endpoints answering as documented. *)
Lemma fetchers_read_good_answers_witness :
  (get_presence (P := sample_platform) live_network new_Session
     (PList [PStr "5"]) fresh_world).1.1 = Ok (PList [online_record]) /\
  (get_user_info (P := sample_platform) live_network new_Session "5"
     fresh_world).1.1 = Ok (PStr "builderman", PStr "Builder") /\
  (get_game_info (P := sample_platform) live_network new_Session (PInt 99)
     fresh_world).1.1 = Ok (PStr "Obby").
Proof.
  destruct (fetchers_read_good_answers (P := sample_platform)
              live_network new_Session fresh_world) as (Hp & Hu & Hg).
  split_and!.
  - apply (Hp (PList [PStr "5"]) [("userPresences", PList [online_record])]).
    eexists. by split_and!.
  - apply (Hu "5" [("name", PStr "builderman"); ("displayName", PStr "Builder")]).
    eexists. by split_and!.
  - apply (Hg (PInt 99) [("data", PList [PDict [("name", PStr "Obby")]])]
             [("name", PStr "Obby")] []); [eexists; by split_and!|reflexivity].
Defined.

(** X9, on a run: a body that is not JSON, under a recent and under an old
    [requests]. *)
Lemma fetchers_on_a_body_that_is_not_json_witness :
  (get_user_info (P := sample_platform) garbled_network new_Session "5"
     fresh_world).1.1 = Ok (PNone, PNone) /\
  (get_user_info (P := old_platform) garbled_network new_Session "5"
     fresh_world).1.1 = Raise JSONDecodeError.
Proof.
  destruct (fetchers_on_a_body_that_is_not_json (P := sample_platform)
              garbled_network new_Session fresh_world) as (_ & Hnew & _).
  destruct (fetchers_on_a_body_that_is_not_json (P := old_platform)
              garbled_network new_Session fresh_world) as (_ & Hold & _).
  split; [apply (Hnew "5")|apply (Hold "5")]; eexists; by split_and!.
Defined.

(** X10, on a run: one record came back. *)
Lemma round_budget_witness :
  let run := cycle (P := sample_platform) live_network new_Session
               (PList [PStr "5"]) fresh_world in
  (clock run.1.2 <= 4)%nat /\ (length (notifications run.2) <= 1)%nat.
Proof.
  apply (round_budget (P := sample_platform) live_network new_Session
           (PList [PStr "5"]) fresh_world (PList [online_record]) [online_record]);
    reflexivity.
Defined.

(** X11, on a run: user 6 has no record in any of three rounds. *)
Lemma table_never_shrinks_witness :
  is_Some (last_states (loop (P := sample_platform) live_network 3 new_Session
                          (PList [PStr "5"; PStr "6"]) seen_world).1.2 !! "6").
Proof.
  apply (table_never_shrinks (P := sample_platform) live_network 3 new_Session
           (PList [PStr "5"; PStr "6"]) seen_world "6").
  by eexists.
Defined.
